(** * it-depends: the Ubuntu resolver and the apt utilities

    A shallow embedding of [it_depends/ubuntu/resolver.py] and of the
    popularity helper of [it_depends/utils.py].

    Python [str] values are modelled as [string]; every separator and every
    character class used by the code is ASCII, so working on the UTF-8 bytes
    gives the same splits as working on code points.  Exceptions are values
    of [exn]; a function that may raise returns [res], a generator returns
    what it yielded together with the exception that ended it, if any.  The
    [semantic_version] package and the host (the apt command, the
    file-to-package index, the native-dependency scanner) are interfaces. *)

From Stdlib Require Import Ascii String List Bool Arith NArith Lia.
From stdpp Require Import base decidable countable gmap strings list.

Open Scope string_scope.

(** ** Python string primitives *)

Module PyStr.

(** [s.startswith(p)] *)
Definition startswith (s p : string) : bool := String.prefix p s.

(** [s[n:]] *)
Fixpoint slice_from (n : nat) (s : string) : string :=
  match n, s with
  | O, _ => s
  | S _, EmptyString => EmptyString
  | S m, String _ t => slice_from m t
  end.

(** Longest prefix whose characters satisfy [p], and what follows it:
    the behaviour of a greedy starred character class that is never
    backtracked. *)
Fixpoint span (p : ascii -> bool) (s : string) : string * string :=
  match s with
  | EmptyString => (EmptyString, EmptyString)
  | String c t =>
      if p c then let '(a, b) := span p t in (String c a, b)
      else (EmptyString, s)
  end.

(** [s.split(sep)] for a one-character separator: never an empty list. *)
Fixpoint split (sep : ascii) (s : string) : list string :=
  match s with
  | EmptyString => [EmptyString]
  | String c t =>
      if Ascii.eqb c sep then EmptyString :: split sep t
      else match split sep t with
           | [] => [String c EmptyString]
           | h :: r => String c h :: r
           end
  end.

(** [s.replace(c, "")] for a one-character [c]. *)
Fixpoint remove (c : ascii) (s : string) : string :=
  match s with
  | EmptyString => EmptyString
  | String d t => if Ascii.eqb d c then remove c t else String d (remove c t)
  end.

(** Text before the last occurrence of [c] in [s], if [c] occurs. *)
Fixpoint before_last (c : ascii) (s : string) : option string :=
  match s with
  | EmptyString => None
  | String d t =>
      match before_last c t with
      | Some r => Some (String d r)
      | None => if Ascii.eqb d c then Some EmptyString else None
      end
  end.

(** Every character of [s] satisfies [p]. *)
Fixpoint all_chars (p : ascii -> bool) (s : string) : bool :=
  match s with
  | EmptyString => true
  | String c t => p c && all_chars p t
  end.

Definition is_digit (c : ascii) : bool :=
  let n := nat_of_ascii c in (48 <=? n)%nat && (n <=? 57)%nat.

Definition is_space (c : ascii) : bool := Ascii.eqb c " ".
Definition is_hyphen (c : ascii) : bool := Ascii.eqb c "-".
Definition is_newline (c : ascii) : bool := Ascii.eqb c "010".

End PyStr.

(** ** The two compiled patterns of [UbuntuResolver] *)

Module Re.
Import PyStr.

(** The leading groups "digits, colon" of [_ubuntu_version] at the start
    of [s]: what is left after the greedy iteration.  [start] is the text
    after the last complete group and [seen] tells whether the group being
    read already has a digit.  Every later part of [_ubuntu_version] matches
    the empty string, so the greedy choice stands. *)
Fixpoint skip_epochs (start : string) (seen : bool) (s : string) : string :=
  match s with
  | EmptyString => start
  | String c t =>
      if is_digit c then skip_epochs start true t
      else if Ascii.eqb c ":" && seen then skip_epochs t false t
      else start
  end.

(** [s] begins with a group "digits, colon". *)
Definition begins_with_epoch (s : string) : bool :=
  match span is_digit s with
  | (String _ _, String ":" _) => true
  | _ => false
  end.

(** [_ubuntu_version.match(s)].  The pattern is: any number of groups
    "digits, colon"; then the named group [version], a greedy run of
    characters other than the hyphen; then any number of groups "hyphen,
    rest of the line".  The match object always exists; the result is its
    group [version]. *)
Definition ubuntu_version_match (s : string) : option string :=
  let rest := skip_epochs s false s in
  Some (fst (span (fun c => negb (is_hyphen c)) rest)).

(** Groups [package] and [version] of a match of [_pattern]. *)
Record dep_groups := { g_package : string; g_version : option string }.

(** [_pattern.match(dep)].  The pattern is: blanks; the named group
    [package], a greedy run of non-blank characters; optionally blanks, an
    opening parenthesis, the named group [version] (any characters of the
    line, greedy) and a closing parenthesis; blanks.  The optional part
    needs the opening parenthesis right after the blanks that follow the
    package and a closing one later on the same line; the greedy body
    makes the group end at the last closing parenthesis. *)
Definition pattern_match (dep : string) : option dep_groups :=
  let s1 := snd (span is_space dep) in
  let '(package, s2) := span (fun c => negb (is_space c)) s1 in
  let s3 := snd (span is_space s2) in
  let version :=
    match s3 with
    | String "(" s4 =>
        before_last ")" (fst (span (fun c => negb (is_newline c)) s4))
    | _ => None
    end in
  Some {| g_package := package; g_version := version |}.

End Re.

(** ** Exceptions *)

(** The Python classes that the handlers of the module tell apart. *)
Inductive exn_class :=
| ValueError
| CalledProcessError
| AttributeError
| NameError
| OtherClass (cls : string).

(** An exception together with where it was raised. *)
Inductive exn :=
| CannotResolveOtherSources      (* the [ValueError] of [resolve] *)
| InvalidDependencyLine          (* the [ValueError] of [ubuntu_packages] *)
| SemverValueError               (* a [ValueError] of [semantic_version] *)
| UnsupportedArchitecture        (* the [ValueError] of [utils.py] *)
| NameNotDefined (name : string) (* a [NameError] of the interpreter *)
| HostFailure (cls : exn_class). (* raised by a command or index call *)

Definition class_of (e : exn) : exn_class :=
  match e with
  | CannotResolveOtherSources | InvalidDependencyLine | SemverValueError
  | UnsupportedArchitecture =>
      ValueError
  | NameNotDefined _ => NameError
  | HostFailure cls => cls
  end.

(** [except (ValueError, subprocess.CalledProcessError)] *)
Definition caught_by_resolve (e : exn) : bool :=
  match class_of e with
  | ValueError | CalledProcessError => true
  | _ => false
  end.

(** A call that returns or raises. *)
Inductive res (A : Type) :=
| Ok (a : A)
| Raise (e : exn).
Arguments Ok {A} a.
Arguments Raise {A} e.

Global Instance res_bind : MBind res := fun A B k m =>
  match m with
  | Ok a => k a
  | Raise e => Raise e
  end.

(** A loop whose body may raise, collecting the results in order. *)
Fixpoint for_each {A B} (f : A -> res B) (l : list A) : res (list B) :=
  match l with
  | [] => Ok []
  | a :: t => b ← f a; r ← for_each f t; Ok (b :: r)
  end.

(** What a generator did when it was run to its end. *)
Record generated (A : Type) := Generated {
  yielded : list A;
  raised : option exn
}.
Arguments Generated {A} yielded raised.
Arguments yielded {A} g.
Arguments raised {A} g.

(** ** The [semantic_version] interface *)

(** [Version], [SimpleSpec] and [version in spec] of the package
    [semantic_version], which the repository imports.  [None] stands for the
    [ValueError] the constructors raise.  [any_version] is [SimpleSpec("*")],
    the default constraint of a [Dependency]. *)
Class SemanticVersion := {
  Version : Type;
  Spec : Type;
  Version_eq_dec :: EqDecision Version;
  Spec_eq_dec :: EqDecision Spec;
  Spec_countable :: Countable Spec;
  coerce : string -> option Version;
  SimpleSpec : string -> option Spec;
  contains : Spec -> Version -> bool;
  any_version : Spec;
  SimpleSpec_star : SimpleSpec "*" = Some any_version;
  contains_any_version : forall v, contains any_version v = true
}.

(** ** Dependencies and packages *)

(** Modelled from the spec: the class [Dependency] of
    [it_depends/dependencies.py], which is not among the sources.  A
    request for a package: the ecosystem, the name and the constraint;
    equality and hashing are on the three of them. *)
Record Dependency `{SemanticVersion} := mkDependency {
  package : string;
  semantic_version : Spec;
  source : string
}.

Global Instance Dependency_eq_dec `{SemanticVersion} : EqDecision Dependency.
Proof. solve_decision. Defined.

Global Instance Dependency_countable `{SemanticVersion} : Countable Dependency.
Proof.
  refine (inj_countable'
            (fun d => (package d, semantic_version d, source d))
            (fun t => mkDependency _ t.1.1 t.1.2 t.2) _).
  by intros [].
Defined.

(** Modelled from the spec: the class [Package] of
    [it_depends/dependencies.py], which is not among the sources.  A
    resolved package: name, version, ecosystem and the set of its
    dependencies ([package.dependencies.union] in [update_dependencies]
    shows it is a set).  A resolver given as [source] counts as its
    [name]. *)
Record Package `{SemanticVersion} := mkPackage {
  name : string;
  version : Version;
  package_source : string;
  dependencies : gset Dependency
}.

(** [UbuntuResolver.name] *)
Definition ubuntu_name : string := "ubuntu".

(** ** The host *)

Inductive host_result (A : Type) :=
| Returned (a : A)
| Failed (cls : exn_class).
Arguments Returned {A} a.
Arguments Failed {A} cls.

(** The calls that leave the module, into [ubuntu/docker.py],
    [ubuntu/apt.py] and [native.py], none of them among the sources: they
    are inputs of the model.  [apt_show n] is
    [run_command("apt", "show", "-a", n).decode("utf8")];
    [file_to_packages f] is the iterable of package names owning [f], which
    may raise after having produced some of them;
    [get_native_dependencies p] is the iterable of native dependencies
    found for [p]. *)
Class Host `{SemanticVersion} := {
  apt_show : string -> host_result string;
  file_to_packages : string -> list string * option exn_class;
  get_native_dependencies : Package -> host_result (list Dependency)
}.

(** ** [class UbuntuResolver] *)

Module UbuntuResolver.
Import PyStr.

Section Methods.
Context `{SV : SemanticVersion} `{H : !Host}.

(** The [try] block of [ubuntu_packages]: the constraint text kept for
    one dependency.  Without a parenthesised version the group is
    [None] and [dep_version.replace] raises [AttributeError]; a text
    that [SimpleSpec] rejects raises [ValueError]; [except Exception]
    turns both into ["*"]. *)
Definition checked_version (dep_version : option string) : string :=
  match dep_version with
  | None => "*"
  | Some v =>
      let v' := remove " " v in
      match SimpleSpec (remove " " v') with
      | Some _ => v'
      | None => "*"
      end
  end.

(** The inner loop over [line[9:].split(",")]. *)
Definition parse_depends (line : string) : res (list (string * string)) :=
  for_each
    (fun dep =>
       match Re.pattern_match dep with
       | None => Raise InvalidDependencyLine
       | Some matched =>
           Ok (Re.g_package matched,
               checked_version (Re.g_version matched))
       end)
    (split "," (slice_from 9 line)).

(** [Dependency(package=pkg, semantic_version=SimpleSpec(ver),
    source=UbuntuResolver())] *)
Definition make_dependency (d : string * string) : res Dependency :=
  match SimpleSpec d.2 with
  | Some spec => Ok (mkDependency _ d.1 spec ubuntu_name)
  | None => Raise SemverValueError
  end.

(** The loop over [contents.split("\n")], with the local variables
    [version] and [packages] as accumulators. *)
Fixpoint scan (package_name : string) (lines : list string)
    (version : option Version) (packages : list Package)
  : res (list Package) :=
  match lines with
  | [] => Ok packages
  | line :: rest =>
      if startswith line "Version: " then
        match Re.ubuntu_version_match (slice_from 9 line) with
        | Some group =>
            match coerce group with
            | Some v => scan package_name rest (Some v) packages
            | None => Raise SemverValueError
            end
        | None => scan package_name rest version packages
        end
      else
        match version with
        | Some v =>
            if startswith line "Depends: " then
              deps ← parse_depends line;
              ds ← for_each make_dependency deps;
              scan package_name rest None
                   (packages ++
                      [mkPackage _ package_name v ubuntu_name
                                 (list_to_set ds)])
            else scan package_name rest version packages
        | None => scan package_name rest version packages
        end
  end.

(** [ubuntu_packages(package_name)].  The [lru_cache] only saves calls:
    the host is a function, so a repeated call gives the same value. *)
Definition ubuntu_packages (package_name : string) : res (list Package) :=
  match apt_show package_name with
  | Failed cls => Raise (HostFailure cls)
  | Returned contents =>
      if String.eqb contents "" then Ok []
      else scan package_name (split "010" contents) None []
  end.

(** [Dependency(package=pkg_name, source=UbuntuResolver.name)]: the
    constraint left out is the default one, [SimpleSpec("*")]. *)
Definition file_dependency (pkg_name : string) : Dependency :=
  mkDependency _ pkg_name any_version ubuntu_name.

(** The body of the [try] statement of [resolve]. *)
Definition resolve_file (dependency : Dependency) : generated Package :=
  let '(names, failure) := file_to_packages (package dependency) in
  let deps := map file_dependency names in
  match failure with
  | Some cls => Generated [] (Some (HostFailure cls))
  | None =>
      match deps with
      | [] => Generated [] None
      | _ :: _ =>
          match coerce "0" with
          | Some zero =>
              Generated
                [mkPackage _ (package dependency) zero (source dependency)
                           (list_to_set deps)]
                None
          | None => Generated [] (Some SemverValueError)
          end
      end
  end.

(** [resolve(self, dependency)], run to exhaustion. *)
Definition resolve (dependency : Dependency) : generated Package :=
  if negb (String.eqb (source dependency) "ubuntu") then
    Generated [] (Some CannotResolveOtherSources)
  else if startswith (package dependency) "/" then
    let g := resolve_file dependency in
    match raised g with
    | Some e =>
        if caught_by_resolve e then Generated (yielded g) None else g
    | None => g
    end
  else
    match ubuntu_packages (package dependency) with
    | Raise e => Generated [] (Some e)
    | Ok packages =>
        Generated
          (filter (fun p => contains (semantic_version dependency)
                                     (version p) = true) packages)
          None
    end.

(** [can_update_dependencies(self, package)] *)
Definition can_update_dependencies (p : Package) : bool :=
  negb (String.eqb (package_source p) ubuntu_name).

(** [update_dependencies(self, package)]: the attribute assignment is
    rendered as the updated record, which is also the returned object. *)
Definition update_dependencies (p : Package) : res Package :=
  match get_native_dependencies p with
  | Failed cls => Raise (HostFailure cls)
  | Returned native_deps =>
      Ok (mkPackage _ (name p) (version p) (package_source p)
                    (dependencies p ∪ list_to_set native_deps))
  end.

End Methods.

(** [__lt__(self, other)] *)
Definition lt {Resolver : Type} (other : Resolver) : bool := false.

End UbuntuResolver.

(** ** Resolver ordering *)

(** The resolvers the engine sorts: the Ubuntu resolver and the resolvers
    of the language ecosystems, told apart by their [name]. *)
Inductive Resolver :=
| Ubuntu
| Ecosystem (name : string).

Section Ordering.
(** [__lt__] of the other resolvers, which [UbuntuResolver] overrides; it
    is defined in [it_depends/dependencies.py], not among the sources, and
    stays a parameter. *)
Variable base_lt : Resolver -> Resolver -> bool.

(** [a < b] as the interpreter evaluates it: the method of [a]'s class. *)
Definition resolver_lt (a b : Resolver) : bool :=
  match a with
  | Ubuntu => UbuntuResolver.lt b
  | Ecosystem _ => base_lt a b
  end.
End Ordering.

Definition incomparable {A} (lt : A -> A -> bool) (a b : A) : Prop :=
  lt a b = false /\ lt b a = false.

Record strict_weak_order {A} (lt : A -> A -> bool) : Prop := {
  swo_irreflexive : forall a, lt a a = false;
  swo_transitive : forall a b c, lt a b = true -> lt b c = true -> lt a c = true;
  swo_incomparable_transitive :
    forall a b c, incomparable lt a b -> incomparable lt b c ->
                  incomparable lt a c
}.

(** ** [it_depends/utils.py]: [_popularity] *)

Module Utils.

(** Names bound in the namespace of [utils.py]: the ones the import system
    sets and the ones bound by the top-level statements. *)
Definition module_globals : list string :=
  ["__name__"; "__doc__"; "__file__";
   "functools"; "os"; "re"; "logging"; "subprocess"; "gzip"; "logger";
   "popdb"; "_popularity"; "all_packages"; "get_apt_packages";
   "contents_db"; "_file_to_package_contents";
   "_file_to_package_apt_file"; "file_to_package"].

(** Names of the [builtins] module: the functions and constants, and the
    one exception class the function mentions. *)
Definition builtins : list string :=
  ["abs"; "aiter"; "all"; "anext"; "any"; "ascii"; "bin"; "bool";
   "breakpoint"; "bytearray"; "bytes"; "callable"; "chr"; "classmethod";
   "compile"; "complex"; "copyright"; "credits"; "delattr"; "dict"; "dir";
   "divmod"; "enumerate"; "eval"; "exec"; "exit"; "filter"; "float";
   "format"; "frozenset"; "getattr"; "globals"; "hasattr"; "hash"; "help";
   "hex"; "id"; "input"; "int"; "isinstance"; "issubclass"; "iter"; "len";
   "license"; "list"; "locals"; "map"; "max"; "memoryview"; "min"; "next";
   "object"; "oct"; "open"; "ord"; "pow"; "print"; "property"; "quit";
   "range"; "repr"; "reversed"; "round"; "set"; "setattr"; "slice";
   "sorted"; "staticmethod"; "str"; "sum"; "super"; "tuple"; "type";
   "vars"; "zip"; "__import__"; "None"; "True"; "False"; "Ellipsis";
   "NotImplemented"; "__debug__"; "ValueError"].

(** Reading a name that is not a local of the function: module globals
    first, then [builtins], else [NameError]. *)
Definition load_global (name : string) : res unit :=
  if bool_decide (name ∈ module_globals) then Ok tt
  else if bool_decide (name ∈ builtins) then Ok tt
  else Raise (NameNotDefined name).

(** [_popularity(packagename)].  The values the body would compute from
    [arch] and from the file system are inputs of the model:
    [arch_supported] is the outcome of the membership test on [arch],
    [dbfile_exists] that of [os.path.exists(dbfile)].  [popdb] is never
    filled, so [not popdb] holds on every call.  The [lru_cache] wrapper
    hashes [packagename], a [str], and then runs the body. *)
Definition _popularity (arch_supported dbfile_exists : bool)
    (packagename : string) : res nat :=
  _ ← load_global "arch";
  if negb arch_supported then Raise UnsupportedArchitecture
  else
    _ ← load_global "popdb";
    _ ← load_global "os";
    _ ← load_global "__file__";
    _ ← (if negb dbfile_exists
         then _ ← load_global "logger"; load_global "urllib"
         else Ok tt);
    _ ← load_global "logger";
    _ ← load_global "gzip";
    _ ← load_global "print";
    _ ← load_global "re";
    _ ← load_global "print";
    Ok 0.

End Utils.

(** ** A concrete [semantic_version] and concrete hosts

    An instance of the interface for running the resolver on explicit apt
    output.  It covers a fragment of the real package: versions are the
    three numeric components (what follows them is dropped), a constraint is
    ["*"] or a comma-separated list of comparisons against a version. *)

Module Semver.
Import PyStr.

Definition version := (N * N * N)%type.

Fixpoint number (acc : N) (s : string) : N :=
  match s with
  | EmptyString => acc
  | String c t => number (acc * 10 + (N_of_ascii c - 48)) t
  end.

Definition read_number (s : string) : option (N * string) :=
  match span is_digit s with
  | (EmptyString, _) => None
  | (ds, rest) => Some (number 0 ds, rest)
  end.

Definition read_dot_number (s : string) : option (N * string) :=
  match s with
  | String "." t => read_number t
  | _ => None
  end.

(** The numeric prefix [major(.minor(.patch)?)?], the number of
    components that were present, and the rest of the text. *)
Definition read_version (s : string) : option (version * nat * string) :=
  match read_number s with
  | None => None
  | Some (major, r1) =>
      match read_dot_number r1 with
      | None => Some ((major, 0, 0)%N, 1, r1)
      | Some (minor, r2) =>
          match read_dot_number r2 with
          | None => Some ((major, minor, 0%N), 2, r2)
          | Some (patch, r3) => Some ((major, minor, patch), 3, r3)
          end
      end
  end.

(** [Version.coerce]: fails without a leading number. *)
Definition coerce (s : string) : option version :=
  match read_version s with
  | Some (v, _, _) => Some v
  | None => None
  end.

Definition compare (a b : version) : comparison :=
  let '(a1, a2, a3) := a in
  let '(b1, b2, b3) := b in
  match N.compare a1 b1 with
  | Eq => match N.compare a2 b2 with
          | Eq => N.compare a3 b3
          | c => c
          end
  | c => c
  end.

Inductive op := Lt_ | Le_ | Eq_ | Ne_ | Ge_ | Gt_.

Global Instance op_eq_dec : EqDecision op.
Proof. solve_decision. Defined.

Global Instance op_countable : Countable op.
Proof.
  refine (inj_countable'
            (fun o => match o with
                      | Lt_ => 0 | Le_ => 1 | Eq_ => 2
                      | Ne_ => 3 | Ge_ => 4 | Gt_ => 5
                      end)
            (fun n => match n with
                      | 0 => Lt_ | 1 => Le_ | 2 => Eq_
                      | 3 => Ne_ | 4 => Ge_ | _ => Gt_
                      end) _).
  by intros [].
Defined.

(** The empty list of clauses is ["*"]. *)
Definition spec := list (op * version).

Definition read_op (s : string) : op * string :=
  if startswith s ">=" then (Ge_, slice_from 2 s)
  else if startswith s "<=" then (Le_, slice_from 2 s)
  else if startswith s "==" then (Eq_, slice_from 2 s)
  else if startswith s "!=" then (Ne_, slice_from 2 s)
  else if startswith s ">" then (Gt_, slice_from 1 s)
  else if startswith s "<" then (Lt_, slice_from 1 s)
  else if startswith s "=" then (Eq_, slice_from 1 s)
  else (Eq_, s).

(** One block of a constraint.  A version with fewer than three
    components is taken only after [>=] and [<], where the missing
    components count as zero. *)
Definition parse_block (b : string) : option (list (op * version)) :=
  if String.eqb b "*" then Some []
  else
    let '(o, t) := read_op b in
    match read_version t with
    | Some (v, n, EmptyString) =>
        match o with
        | Ge_ | Lt_ => Some [(o, v)]
        | _ => if Nat.eqb n 3 then Some [(o, v)] else None
        end
    | _ => None
    end.

(** [SimpleSpec(expression)] *)
Definition SimpleSpec (expression : string) : option spec :=
  match mapM parse_block (split "," expression) with
  | Some blocks => Some (List.concat blocks)
  | None => None
  end.

Definition satisfies (v : version) (c : op * version) : bool :=
  match c.1, compare v c.2 with
  | Lt_, Lt | Le_, Lt | Le_, Eq | Eq_, Eq | Ge_, Eq | Ge_, Gt | Gt_, Gt
  | Ne_, Lt | Ne_, Gt => true
  | _, _ => false
  end.

(** [version in spec] *)
Definition contains (s : spec) (v : version) : bool :=
  forallb (satisfies v) s.

Definition instance : SemanticVersion :=
  Build_SemanticVersion version spec _ _ _ coerce SimpleSpec contains []
                        eq_refl (fun _ => eq_refl).

End Semver.

(** [contents] of an apt answer, line by line. *)
Definition unlines (lines : list string) : string :=
  String.concat (String "010" EmptyString) lines.

(** Concrete answers of the host, for running the resolver. *)
Module Scenario.
#[local] Existing Instance Semver.instance.

Definition apt_libfoo : string :=
  unlines ["Package: libfoo";
           "Version: 1:2.31-0ubuntu9.9";
           "Depends: libc6 (>= 2.29), libgcc-s1 (>= 3.4)";
           "Description: an example library";
           ""].

(** A version stanza without a [Depends: ] line. *)
Definition apt_fonts_data : string :=
  unlines ["Package: fonts-data";
           "Version: 1.0-2";
           "Priority: optional";
           "Description: fonts, nothing to depend on";
           ""].

(** The constraint text of the FIXME comment of [ubuntu_packages]. *)
Definition apt_libbar : string :=
  unlines ["Package: libbar";
           "Version: 1.0-1";
           "Depends: libssl (= 1:7.0.1-12)";
           ""].

Definition native_libc : Dependency :=
  mkDependency _ "/usr/lib/x86_64-linux-gnu/libc.so.6" any_version
               ubuntu_name.

Definition host : Host := {|
  apt_show n :=
    if String.eqb n "libfoo" then Returned apt_libfoo
    else if String.eqb n "fonts-data" then Returned apt_fonts_data
    else if String.eqb n "libbar" then Returned apt_libbar
    else if String.eqb n "libgone" then Failed CalledProcessError
    else Returned "";
  file_to_packages f :=
    if String.eqb f "/usr/lib/libfoo.so.1" then (["libfoo"], None)
    else if String.eqb f "/usr/lib/broken" then ([], Some CalledProcessError)
    else ([], None);
  get_native_dependencies p := Returned [native_libc; native_libc]
|}.

Definition resolve : Dependency -> generated Package :=
  UbuntuResolver.resolve (H := host).

(** [ubuntu:libfoo@>=2.0.0] *)
Definition libfoo_dep : Dependency :=
  mkDependency _ "libfoo" [(Semver.Ge_, (2, 0, 0)%N)] ubuntu_name.

(** [ubuntu:fonts-data@*] *)
Definition fonts_dep : Dependency :=
  mkDependency _ "fonts-data" any_version ubuntu_name.

(** [ubuntu:libbar@*] *)
Definition libbar_dep : Dependency :=
  mkDependency _ "libbar" any_version ubuntu_name.

(** [ubuntu:libgone@*] *)
Definition libgone_dep : Dependency :=
  mkDependency _ "libgone" any_version ubuntu_name.

(** [ubuntu:/usr/lib/libfoo.so.1@>=1.0.0] *)
Definition file_dep : Dependency :=
  mkDependency _ "/usr/lib/libfoo.so.1" [(Semver.Ge_, (1, 0, 0)%N)]
               ubuntu_name.

(** [ubuntu:/usr/lib/broken@*] *)
Definition broken_file_dep : Dependency :=
  mkDependency _ "/usr/lib/broken" any_version ubuntu_name.

(** [pip:cvedb@*] *)
Definition pip_dep : Dependency :=
  mkDependency _ "cvedb" any_version "pip".

(** [pip:cvedb@0.0.1], not yet augmented *)
Definition cvedb : Package :=
  mkPackage _ "cvedb" (0, 0, 1)%N "pip" ∅.

End Scenario.

(** ** More string primitives, for [utils.py] and the dependency lines *)

Module PyText.
Import PyStr.

(** A byte that continues a UTF-8 sequence. *)
Definition is_continuation (c : ascii) : bool :=
  let n := nat_of_ascii c in (128 <=? n)%nat && (n <=? 191)%nat.

(** [len(s)]: the number of code points, that is of bytes that open a
    sequence. *)
Fixpoint len (s : string) : nat :=
  match s with
  | EmptyString => 0
  | String c t => if is_continuation c then len t else S (len t)
  end.

(** [s.split(sep)] for a separator of any positive length: occurrences are
    taken from left to right and do not overlap.  [skip] counts the
    characters of a separator just found that are still to be dropped; the
    call from outside has [skip = 0]. *)
Fixpoint split_by (sep : string) (skip : nat) (s : string) : list string :=
  match s with
  | EmptyString => [EmptyString]
  | String c t =>
      match skip with
      | S k => split_by sep k t
      | O =>
          if startswith s sep then
            EmptyString :: split_by sep (String.length sep - 1) t
          else
            match split_by sep 0 t with
            | [] => [String c EmptyString]
            | h :: r => String c h :: r
            end
      end
  end.

(** Length in bytes of the line boundary [s] begins with, 0 without one.
    The boundaries of [str.splitlines]: LF, CR, CR LF, VT, FF, FS, GS, RS,
    NEL (U+0085), LS (U+2028) and PS (U+2029). *)
Definition boundary_length (s : string) : nat :=
  if startswith s (String "013" (String "010" EmptyString)) then 2
  else if startswith s (String "194" (String "133" EmptyString)) then 2
  else if startswith s
            (String "226" (String "128" (String "168" EmptyString))) then 3
  else if startswith s
            (String "226" (String "128" (String "169" EmptyString))) then 3
  else
    match s with
    | String c _ =>
        if existsb (Ascii.eqb c) ["010"; "013"; "011"; "012";
                                  "028"; "029"; "030"]%char
        then 1 else 0
    | EmptyString => 0
    end.

(** [s.splitlines()]; [skip] as in [split_by]. *)
Fixpoint splitlines (skip : nat) (s : string) : list string :=
  match s with
  | EmptyString => []
  | String c t =>
      match skip with
      | S k => splitlines k t
      | O =>
          match boundary_length s with
          | O =>
              match splitlines 0 t with
              | [] => [String c EmptyString]
              | h :: r => String c h :: r
              end
          | S k => EmptyString :: splitlines k t
          end
      end
  end.

(** [sep.join(l)] *)
Definition join (sep : string) (l : list string) : string :=
  String.concat sep l.

End PyText.

(** ** [it_depends/utils.py]: the apt and apt-file helpers *)

Module AptUtils.
Import PyStr PyText.

(** What the helpers of [utils.py] raise. *)
Inductive utils_exn :=
| UnsupportedArch                (* [ValueError]: only amd64 and i386 *)
| UnpackMismatch                 (* [ValueError] of a two-name unpacking *)
| NotFound (filename : string)   (* [ValueError]: not found *)
| UndefinedName (name : string)  (* [NameError] *)
| NoAttribute (attr : string)    (* [AttributeError] *)
| CommandFailed (cls : exn_class). (* raised by the command itself *)

Inductive outcome (A : Type) :=
| Return (a : A)
| Throw (e : utils_exn).
Arguments Return {A} a.
Arguments Throw {A} e.

(** [arch in ("amd64", "i386")] *)
Definition supported_arch (arch : string) : bool :=
  String.eqb arch "amd64" || String.eqb arch "i386".

(** *** [get_apt_packages] *)

(** The state is the module variable [all_packages]; [apt_list] is what
    [subprocess.check_output(["apt", "list"]).decode("utf8")] gives when it
    is run.  The result is the returned tuple and the new state. *)
Definition get_apt_packages (apt_list : host_result string)
    (all_packages : option (list string))
  : outcome (list string) * option (list string) :=
  match all_packages with
  | Some cached => (Return cached, Some cached)
  | None =>
      match apt_list with
      | Failed cls => (Throw (CommandFailed cls), None)
      | Returned text =>
          let names :=
            map (fun x => hd EmptyString (split "/" x)) (splitlines 0 text) in
          (Return names, Some names)
      end
  end.

(** *** [_file_to_package_apt_file] *)

(** The loop over [contents.split("\n")]: [selected] is the pair
    [(filename_i, package_i)] kept so far. *)
Fixpoint select_shortest (lines : list string)
    (selected : option (string * string))
  : outcome (option (string * string)) :=
  match lines with
  | [] => Return selected
  | line :: rest =>
      if String.eqb line "" then select_shortest rest selected
      else
        match split_by ": " 0 line with
        | [package_i; filename_i] =>
            select_shortest rest
              (match selected with
               | None => Some (filename_i, package_i)
               | Some (shortest, _) =>
                   if (len filename_i <? len shortest)%nat
                   then Some (filename_i, package_i)
                   else selected
               end)
        | _ => Throw UnpackMismatch
        end
  end.

(** [_file_to_package_apt_file(filename, arch)]; [apt_file_search] is the
    decoded output of [apt-file -x search filename], or the exception of
    [subprocess.run]. *)
Definition _file_to_package_apt_file
    (apt_file_search : string -> host_result string)
    (filename arch : string) : outcome string :=
  if negb (supported_arch arch) then Throw UnsupportedArch
  else
    match apt_file_search filename with
    | Failed cls => Throw (CommandFailed cls)
    | Returned contents =>
        match select_shortest (split "010" contents) None with
        | Throw e => Throw e
        | Return (Some (_, package_i)) => Return package_i
        | Return None => Throw (NotFound filename)
        end
    end.

(** [file_to_package(filename, arch)]: the second [return] of the source
    is never reached. *)
Definition file_to_package
    (apt_file_search : string -> host_result string)
    (filename arch : string) : outcome string :=
  _file_to_package_apt_file apt_file_search
    (String "/" (filename ++ "$")) arch.

(** *** [_file_to_package_contents] *)

(** Attributes of a [logging.Logger]. *)
Definition logger_attributes : list string :=
  ["name"; "level"; "parent"; "propagate"; "handlers"; "disabled";
   "filters"; "manager"; "root"; "setLevel"; "debug"; "info"; "warning";
   "warn"; "error"; "exception"; "critical"; "fatal"; "log"; "findCaller";
   "makeRecord"; "handle"; "addHandler"; "removeHandler"; "hasHandlers";
   "callHandlers"; "getEffectiveLevel"; "isEnabledFor"; "getChild";
   "addFilter"; "removeFilter"; "filter"].

(** [logger.<attr>] *)
Definition logger_attr (attr : string) : outcome unit :=
  if bool_decide (attr ∈ logger_attributes) then Return tt
  else Throw (NoAttribute attr).

(** A global name read by a function of the module. *)
Definition global_name (name : string) : outcome unit :=
  match Utils.load_global name with
  | Ok _ => Return tt
  | Raise _ => Throw (UndefinedName name)
  end.

(** [_file_to_package_contents(filename, arch)].  [db_empty] is [not
    contents_db] for the module variable, [dbfile_exists] the answer of
    [os.path.exists(dbfile)]; [search] stands for the rest of the body, run
    once [contents_db] is filled.  The result is paired with the new value
    of [not contents_db]: the only statement that fills the dictionary comes
    after the call of [logger.inf]. *)
Definition _file_to_package_contents (search : string -> outcome string)
    (dbfile_exists db_empty : bool) (filename arch : string)
  : outcome string * bool :=
  if negb (supported_arch arch) then (Throw UnsupportedArch, db_empty)
  else
    match (if dbfile_exists then Return tt else global_name "urllib") with
    | Throw e => (Throw e, db_empty)
    | Return _ =>
        if db_empty then
          match logger_attr "inf" with
          | Throw e => (Throw e, db_empty)
          | Return _ => (search filename, false)
          end
        else (search filename, db_empty)
    end.

(** Calls of [_file_to_package_contents] one after the other, from a
    given state of [contents_db]. *)
Fixpoint contents_calls (search : string -> outcome string)
    (calls : list (bool * string * string)) (db_empty : bool)
  : list (outcome string) :=
  match calls with
  | [] => []
  | (dbfile_exists, filename, arch) :: rest =>
      let '(result, db_empty') :=
        _file_to_package_contents search dbfile_exists db_empty
                                  filename arch in
      result :: contents_calls search rest db_empty'
  end.

End AptUtils.

(** ** More of [class UbuntuResolver] *)

(** Modelled from the spec: the class [ResolverAvailability] of
    [it_depends/dependencies.py], which is not among the sources: whether
    the resolver can run, and why not; the reason left out is empty. *)
Record ResolverAvailability := mkAvailability {
  is_available_ok : bool;
  reason : string
}.

Module UbuntuHost.

(** [is_available(self)].  [apt] is [shutil.which("apt") is not None],
    [ubuntu] the answer of [is_running_ubuntu()] and [docker] is
    [shutil.which("docker") is not None]. *)
Definition is_available (apt ubuntu docker : bool) : ResolverAvailability :=
  if negb (apt && ubuntu) && negb docker then
    mkAvailability false
      ("`Ubuntu` classifier either needs to be running from Ubuntu 20.04 or "
       ++ "to have Docker installed")
  else mkAvailability true "".

(** [can_resolve_from_source(self, repo)] *)
Definition can_resolve_from_source {SourceRepository : Type}
    (repo : SourceRepository) : bool := false.

(** [resolve_from_source(self, repo, cache)] *)
Definition resolve_from_source {SourceRepository PackageCache SourcePackage}
    (repo : SourceRepository) (cache : option PackageCache)
  : option SourcePackage := None.

End UbuntuHost.

(** ** The dependency loop as a function *)

Section DependsView.
Context `{SV : SemanticVersion}.
Import PyStr.

(** The entry appended to [deps] for one piece of a [Depends: ] line. *)
Definition dependency_text (dep : string) : string * string :=
  match Re.pattern_match dep with
  | Some matched =>
      (Re.g_package matched,
       UbuntuResolver.checked_version (Re.g_version matched))
  | None => (EmptyString, "*")
  end.

(** The [Dependency] built from that entry. *)
Definition dependency_of (dep : string) : Dependency :=
  let d := dependency_text dep in
  mkDependency _ d.1 (default any_version (SimpleSpec d.2)) ubuntu_name.

(** The dependencies of a [Depends: ] line, in the order of the line. *)
Definition depends_of (line : string) : list Dependency :=
  map dependency_of (split "," (slice_from 9 line)).

(** Number of lines that begin with [prefix]. *)
Definition count_lines (prefix : string) (lines : list string) : nat :=
  length (filter (fun line => startswith line prefix = true) lines).

End DependsView.

(** ** The format of a [Depends: ] line

    The other direction of the two patterns, after the example of the
    source: [Depends: libc6 (>= 2.29), libgcc-s1 (>= 3.4)]. *)

Section DependsFormat.
Import PyStr.

Definition is_comma (c : ascii) : bool := Ascii.eqb c ",".

(** One entry, a package name and a constraint text. *)
Definition format_dependency (entry : string * string) : string :=
  entry.1 ++ " (" ++ entry.2 ++ ")".

Definition format_depends (entries : list (string * string)) : string :=
  "Depends: " ++ PyText.join ", " (map format_dependency entries).

(** Names and constraint texts that the format can carry: a name is not
    empty and has neither blank nor comma, a constraint text has neither
    comma nor newline. *)
Definition well_formed_entry (entry : string * string) : bool :=
  negb (String.eqb entry.1 "")
  && all_chars (fun c => negb (is_space c) && negb (is_comma c)) entry.1
  && all_chars (fun c => negb (is_comma c) && negb (is_newline c)) entry.2.

End DependsFormat.

(** ** Version lines that the loop cannot take *)

Section RejectedLines.
Context `{SV : SemanticVersion}.
Import PyStr.

(** A [Version: ] line whose group [Version.coerce] refuses. *)
Definition version_line_rejected (line : string) : bool :=
  startswith line "Version: "
  && match Re.ubuntu_version_match (slice_from 9 line) with
     | Some group =>
         match coerce group with
         | Some _ => false
         | None => true
         end
     | None => false
     end.

End RejectedLines.

(** More concrete answers of the host. *)
Module MoreScenario.
#[local] Existing Instance Semver.instance.

(** The host of [Scenario], with a lookup that fails for want of the
    [apt-file] program. *)
Definition host : Host := {|
  apt_show := apt_show (Host := Scenario.host);
  file_to_packages f :=
    if String.eqb f "/usr/lib/missing"
    then ([], Some (OtherClass "FileNotFoundError"))
    else file_to_packages (Host := Scenario.host) f;
  get_native_dependencies := get_native_dependencies (Host := Scenario.host)
|}.

(** [ubuntu:libfoo@*] *)
Definition libfoo_any : Dependency :=
  mkDependency _ "libfoo" any_version ubuntu_name.

(** [ubuntu:/usr/lib/missing@*] *)
Definition missing_file_dep : Dependency :=
  mkDependency _ "/usr/lib/missing" any_version ubuntu_name.

(** An answer of [apt-file -x search]: two files match. *)
Definition apt_file_libc : string :=
  unlines ["libc6: /lib/x86_64-linux-gnu/libc.so.6";
           "libc6-i386: /lib32/libc.so.6";
           ""].

Definition apt_file_search (filename : string) : host_result string :=
  if String.eqb filename "/libc.so.6$" then Returned apt_file_libc
  else Returned "".

(** An answer of [apt list]. *)
Definition apt_list : string :=
  unlines ["Listing..."; "libc6/focal-updates 2.31-0ubuntu9.9 amd64";
           "zlib1g/focal 1:1.2.11 amd64"; ""].

End MoreScenario.

(** ** What [select_shortest] maintains *)

Section Selection.
Import PyStr PyText AptUtils.

(** [line] is the pair "package: filename". *)
Definition line_entry (line package_i filename_i : string) : Prop :=
  line <> EmptyString /\ split_by ": " 0 line = [package_i; filename_i].

(** [selected] after the lines [seen]: nothing while every line was empty;
    else the entry of one line, with a strictly shorter file name than the
    entries before it and none shorter after it. *)
Definition selection_invariant (seen : list string)
    (selected : option (string * string)) : Prop :=
  match selected with
  | None => Forall (fun line => line = EmptyString) seen
  | Some (filename, package) =>
      exists before line after,
        seen = (before ++ line :: after)%list
        /\ line_entry line package filename
        /\ (forall l p f, l ∈ before -> line_entry l p f ->
                          len filename < len f)
        /\ (forall l p f, l ∈ after -> line_entry l p f ->
                          len filename <= len f)
  end.

End Selection.

(** * Properties *)

(** ** Strings and patterns *)

Example re_version_1 :
  Re.ubuntu_version_match "1:2.31-0ubuntu9.9" = Some "2.31".
Proof. reflexivity. Qed.
Example re_version_2 : Re.ubuntu_version_match "12" = Some "12".
Proof. reflexivity. Qed.
Example re_version_3 : Re.ubuntu_version_match "1:2:3-4" = Some "3".
Proof. reflexivity. Qed.
Example re_pattern_1 :
  Re.pattern_match " libc6 (>= 2.29)"
  = Some {| Re.g_package := "libc6"; Re.g_version := Some ">= 2.29" |}.
Proof. reflexivity. Qed.
Example re_pattern_2 :
  Re.pattern_match " libfoo"
  = Some {| Re.g_package := "libfoo"; Re.g_version := None |}.
Proof. reflexivity. Qed.
Example py_split_1 : PyStr.split "," "a,b,," = ["a"; "b"; ""; ""].
Proof. reflexivity. Qed.

Section StringFacts.
Import PyStr.

Lemma span_stop p a c b :
  all_chars p a = true -> p c = false ->
  span p (a ++ String c b) = (a, String c b).
Proof.
  induction a as [|x a IH]; simpl; intros Ha Hc.
  - by rewrite Hc.
  - apply andb_prop in Ha as [Hx Ha]. by rewrite Hx, IH.
Qed.



Lemma begins_with_epoch_false u :
  Re.begins_with_epoch u = false ->
  match span is_digit u with
  | (ds, rest) =>
      (forall t, rest <> String ":" t) \/ (ds = EmptyString /\ false = false)
  end.
Proof.
  unfold Re.begins_with_epoch. destruct (span is_digit u) as [ds rest].
  destruct ds as [|d ds]; [by right|].
  destruct rest as [|c rest]; [by left|].
  destruct (Ascii.eqb_spec c ":") as [->|Hne]; [done|].
  intros _. left. intros t [=]. done.
Qed.


Lemma remove_idempotent c s : remove c (remove c s) = remove c s.
Proof.
  induction s as [|d s IH]; simpl; [done|].
  destruct (Ascii.eqb d c) eqn:Hd; simpl; [done|]. by rewrite Hd, IH.
Qed.

Lemma startswith_app p s : startswith (p ++ s) p = true.
Proof.
  unfold startswith. induction p as [|c p IH]; simpl.
  - by destruct s.
  - rewrite IH. by destruct (ascii_dec c c).
Qed.

Lemma slice_from_app p s : slice_from (String.length p) (p ++ s) = s.
Proof. induction p as [|c p IH]; simpl; [by destruct s|done]. Qed.

End StringFacts.

(** ** The loop of [ubuntu_packages] *)

Section ScanFacts.
Context `{SV : SemanticVersion} `{H : !Host}.
Import PyStr UbuntuResolver.

Lemma for_each_ok {A B} (f : A -> res B) (P : B -> Prop) l :
  (forall a, exists b, f a = Ok b /\ P b) ->
  exists r, for_each f l = Ok r /\ Forall P r.
Proof.
  intros Hf. induction l as [|a l [r [Hr HP]]]; simpl.
  - by exists [].
  - destruct (Hf a) as [b [Hb HPb]]. rewrite Hb. simpl. rewrite Hr. simpl.
    exists (b :: r). split; [done | by constructor].
Qed.

Lemma for_each_ok_on {A B} (f : A -> res B) (P : A -> Prop) l :
  Forall P l -> (forall a, P a -> exists b, f a = Ok b) ->
  exists r, for_each f l = Ok r.
Proof.
  intros Hl Hf. induction Hl as [|a l Ha _ [r Hr]]; simpl.
  - by exists [].
  - destruct (Hf a Ha) as [b Hb]. rewrite Hb. simpl. rewrite Hr. simpl.
    by exists (b :: r).
Qed.

(** [_pattern] matches every text, so the [raise] of the inner loop is
    never reached. *)
Lemma pattern_match_total dep : exists g, Re.pattern_match dep = Some g.
Proof.
  unfold Re.pattern_match.
  destruct (span (fun c => negb (is_space c)) (span is_space dep).2).
  eauto.
Qed.

(** The constraint text kept for a dependency is one [SimpleSpec] takes. *)
Lemma checked_version_parses dep_version :
  is_Some (SimpleSpec (checked_version dep_version)).
Proof.
  unfold checked_version. destruct dep_version as [v|].
  - rewrite remove_idempotent.
    destruct (SimpleSpec (remove " " v)) eqn:Hv.
    + by rewrite Hv.
    + rewrite SimpleSpec_star. eauto.
  - rewrite SimpleSpec_star. eauto.
Qed.

Lemma parse_depends_ok line :
  exists deps, parse_depends line = Ok deps
               /\ Forall (fun d => is_Some (SimpleSpec d.2)) deps.
Proof.
  unfold parse_depends. apply for_each_ok. intros dep.
  destruct (pattern_match_total dep) as [g ->].
  eexists. split; [done|]. apply checked_version_parses.
Qed.

(** A [Depends: ] line read while a version is pending appends one
    package of that version and clears the pending version. *)
Lemma scan_depends package_name line rest v packages :
  startswith line "Version: " = false ->
  startswith line "Depends: " = true ->
  exists ds,
    scan package_name (line :: rest) (Some v) packages
    = scan package_name rest None
           (packages ++ [mkPackage _ package_name v ubuntu_name ds])%list.
Proof.
  intros Hv Hd. simpl. rewrite Hv, Hd.
  destruct (parse_depends_ok line) as [deps [-> Hdeps]]. simpl.
  destruct (for_each_ok_on make_dependency _ deps Hdeps) as [ds ->].
  - intros d [spec Hspec]. unfold make_dependency. rewrite Hspec. eauto.
  - simpl. eauto.
Qed.

(** A [Version: ] line sets the pending version to the coerced group, or
    raises what [Version.coerce] raises. *)
Lemma scan_version package_name text rest version packages :
  scan package_name (("Version: " ++ text) :: rest) version packages
  = match Re.ubuntu_version_match text with
    | Some group =>
        match coerce group with
        | Some v => scan package_name rest (Some v) packages
        | None => Raise SemverValueError
        end
    | None => scan package_name rest version packages
    end.
Proof.
  cbn [scan]. rewrite (startswith_app "Version: " text).
  change 9 with (String.length "Version: ").
  by rewrite (slice_from_app "Version: " text).
Qed.

(** The only exception the loop can end with is the one of
    [Version.coerce]. *)
Lemma scan_raises package_name lines :
  forall version packages e,
    scan package_name lines version packages = Raise e ->
    e = SemverValueError.
Proof.
  induction lines as [|line rest IH]; intros version packages e; [done|].
  destruct (startswith line "Version: ") eqn:Hv.
  - simpl. rewrite Hv. unfold Re.ubuntu_version_match.
    destruct (coerce _); [apply IH | congruence].
  - destruct version as [v|].
    + destruct (startswith line "Depends: ") eqn:Hd.
      * destruct (scan_depends package_name line rest v packages Hv Hd)
          as [ds ->]. apply IH.
      * simpl. rewrite Hv, Hd. apply IH.
    + simpl. rewrite Hv. apply IH.
Qed.

(** Packages already collected stay, in order, at the front. *)
Lemma scan_extends package_name lines :
  forall version packages result,
    scan package_name lines version packages = Ok result ->
    exists more, result = (packages ++ more)%list.
Proof.
  induction lines as [|line rest IH]; intros version packages result.
  - intros [= <-]. exists []. by rewrite app_nil_r.
  - destruct (startswith line "Version: ") eqn:Hv.
    + simpl. rewrite Hv. unfold Re.ubuntu_version_match.
      destruct (coerce _); [apply IH | done].
    + destruct version as [v|].
      * destruct (startswith line "Depends: ") eqn:Hd.
        -- destruct (scan_depends package_name line rest v packages Hv Hd)
             as [ds ->].
           intros [more ->]%IH. rewrite <- app_assoc. eauto.
        -- simpl. rewrite Hv, Hd. apply IH.
      * simpl. rewrite Hv. apply IH.
Qed.

(** Without a [Depends: ] line nothing is ever appended. *)
Lemma scan_without_depends package_name lines :
  Forall (fun line => startswith line "Depends: " = false) lines ->
  forall version packages result,
    scan package_name lines version packages = Ok result ->
    result = packages.
Proof.
  induction 1 as [|line rest Hd _ IH]; intros version packages result.
  - by intros [= <-].
  - simpl. rewrite Hd.
    destruct (startswith line "Version: ").
    + unfold Re.ubuntu_version_match. destruct (coerce _); [apply IH|done].
    + destruct version; apply IH.
Qed.

End ScanFacts.

(** ** [resolve] *)

Section ResolveFacts.
Context `{SV : SemanticVersion} `{H : !Host}.
Import PyStr UbuntuResolver.

Lemma resolve_other_source d :
  source d <> "ubuntu" ->
  resolve d = Generated [] (Some CannotResolveOtherSources).
Proof.
  intros Hs. unfold resolve.
  destruct (String.eqb_spec (source d) "ubuntu"); [done|done].
Qed.

Lemma resolve_ubuntu d :
  source d = "ubuntu" ->
  resolve d =
    if startswith (package d) "/" then
      let g := resolve_file d in
      match raised g with
      | Some e => if caught_by_resolve e then Generated (yielded g) None else g
      | None => g
      end
    else
      match ubuntu_packages (package d) with
      | Raise e => Generated [] (Some e)
      | Ok packages =>
          Generated
            (filter (fun p => contains (semantic_version d) (version p) = true)
                    packages)
            None
      end.
Proof. intros Hs. unfold resolve. by rewrite Hs. Qed.

(** What the file-path branch can yield. *)
Lemma resolve_file_yielded d p :
  p ∈ yielded (resolve_file d) ->
  (file_to_packages (package d)).2 = None
  /\ (file_to_packages (package d)).1 <> []
  /\ coerce "0" = Some (version p)
  /\ resolve_file d = Generated [p] None
  /\ p = mkPackage _ (package d) (version p) (source d)
                   (list_to_set
                      (map file_dependency (file_to_packages (package d)).1)).
Proof.
  unfold resolve_file. destruct (file_to_packages (package d)) as [names f].
  destruct f as [cls|]; simpl; [by intros ?%elem_of_nil|].
  destruct names as [|n names]; simpl; [by intros ?%elem_of_nil|].
  destruct (coerce "0") as [zero|]; simpl; [|by intros ?%elem_of_nil].
  intros ->%list_elem_of_singleton. done.
Qed.

Lemma resolve_file_raised_yields_nothing d e :
  raised (resolve_file d) = Some e -> yielded (resolve_file d) = [].
Proof.
  unfold resolve_file. destruct (file_to_packages (package d)) as [names f].
  destruct f as [cls|]; simpl; [done|].
  destruct names as [|n names]; simpl; [done|].
  by destruct (coerce "0").
Qed.

End ResolveFacts.

(** ** Versions reported without a dependency list *)

Section DependsFacts.
Context `{SV : SemanticVersion} `{H : !Host}.
Import PyStr UbuntuResolver.

(** An apt answer without any [Depends: ] line gives no package, whatever
    versions it reports. *)
Lemma resolve_needs_depends_line d contents :
  source d = "ubuntu" ->
  startswith (package d) "/" = false ->
  apt_show (package d) = Returned contents ->
  Forall (fun line => startswith line "Depends: " = false)
         (split "010" contents) ->
  yielded (resolve d) = [].
Proof.
  intros Hs Hp Ha Hd. rewrite resolve_ubuntu, Hp by done.
  unfold ubuntu_packages. rewrite Ha.
  destruct (String.eqb contents ""); [done|].
  destruct (scan _ _ _ _) as [result|e] eqn:Hscan; [|done].
  by rewrite (scan_without_depends _ _ Hd _ _ _ Hscan).
Qed.

End DependsFacts.

(** C1 (the code departs from the claim).  The apt answer for [fonts-data]
    reports the version 1.0-2, which the wildcard constraint admits, in a
    stanza without a [Depends: ] line; [resolve] yields no package for it,
    where the claim promises a package with an empty dependency set. *)
Theorem C1_version_without_depends_yields_nothing :
  nth 1 (PyStr.split "010" Scenario.apt_fonts_data) "" = "Version: 1.0-2"
  /\ Re.ubuntu_version_match "1.0-2" = Some "1.0"
  /\ Semver.coerce "1.0" = Some (1, 0, 0)%N
  /\ Semver.contains [] (1, 0, 0)%N = true
  /\ Scenario.resolve Scenario.fonts_dep = Generated [] None.
Proof. repeat split; reflexivity. Qed.

(** ** The constraint filter *)

Section ConstraintFacts.
Context `{SV : SemanticVersion} `{H : !Host}.
Import PyStr UbuntuResolver.

(** C2, as amended.  A package yielded for a dependency on a package name
    satisfies the constraint of the dependency.  A package yielded for a
    dependency on a file path has the version [Version.coerce("0")] and is
    not compared with the constraint; it satisfies the default
    constraint. *)
Theorem C2_resolve_yields_matching_versions d p :
  source d = "ubuntu" ->
  p ∈ yielded (resolve d) ->
  (startswith (package d) "/" = false ->
   contains (semantic_version d) (version p) = true)
  /\ (startswith (package d) "/" = true ->
      coerce "0" = Some (version p)
      /\ (semantic_version d = any_version ->
          contains (semantic_version d) (version p) = true)).
Proof.
  intros Hs Hp. rewrite resolve_ubuntu in Hp by done. split; intros Hf.
  - rewrite Hf in Hp. destruct (ubuntu_packages (package d)); simpl in Hp.
    + by apply list_elem_of_filter in Hp as [? _].
    + by apply elem_of_nil in Hp.
  - rewrite Hf in Hp. cbv zeta in Hp.
    assert (p ∈ yielded (resolve_file d)) as Hy.
    { destruct (raised (resolve_file d)) as [e|]; [|done].
      by destruct (caught_by_resolve e). }
    apply resolve_file_yielded in Hy as (_ & _ & Hz & _).
    split; [done|]. intros ->. apply contains_any_version.
Qed.

End ConstraintFacts.

(** C2, a run of the amended statement: the package found for
    [ubuntu:libfoo@>=2.0.0] has a version the constraint admits. *)
Lemma C2_resolve_yields_matching_versions_witness :
  length (yielded (Scenario.resolve Scenario.libfoo_dep)) = 1
  /\ Forall (fun p => contains (semantic_version Scenario.libfoo_dep)
                               (version p) = true)
            (yielded (Scenario.resolve Scenario.libfoo_dep)).
Proof.
  split; [reflexivity|].
  apply Forall_forall. intros p Hp.
  destruct (C2_resolve_yields_matching_versions (H := Scenario.host)
              Scenario.libfoo_dep p eq_refl Hp) as [Hname _].
  apply Hname. reflexivity.
Defined.

(** C2 as stated fails: the package yielded for the file path
    [/usr/lib/libfoo.so.1] has version 0.0.0, which the constraint
    [>=1.0.0] of the dependency does not admit. *)
Lemma C2_file_path_ignores_constraint :
  ~ (forall d p,
       source d = "ubuntu" ->
       p ∈ yielded (Scenario.resolve d) ->
       contains (semantic_version d) (version p) = true).
Proof.
  intros Hclaim.
  pose (p := mkPackage Semver.instance "/usr/lib/libfoo.so.1" (0, 0, 0)%N
               "ubuntu"
               (list_to_set
                  [UbuntuResolver.file_dependency (SV := Semver.instance)
                     "libfoo"])).
  assert (p ∈ yielded (Scenario.resolve Scenario.file_dep)) as Hp.
  { change (p ∈ [p]). apply list_elem_of_here. }
  specialize (Hclaim Scenario.file_dep p eq_refl Hp).
  change (false = true) in Hclaim. discriminate Hclaim.
Qed.

(** ** Constraint texts that [SimpleSpec] rejects *)

Section WideningFacts.
Context `{SV : SemanticVersion} `{H : !Host}.
Import PyStr UbuntuResolver.

(** A rejected constraint text is replaced by the wildcard text. *)
Lemma checked_version_rejected v :
  SimpleSpec (remove " " v) = None -> checked_version (Some v) = "*".
Proof.
  intros Hv. unfold checked_version. by rewrite remove_idempotent, Hv.
Qed.

(** The dependency built from it admits every version. *)
Lemma rejected_constraint_admits_everything pkg v ver :
  SimpleSpec (remove " " v) = None ->
  exists d, make_dependency (pkg, checked_version (Some v)) = Ok d
            /\ package d = pkg
            /\ contains (semantic_version d) ver = true.
Proof.
  intros Hv. rewrite (checked_version_rejected v Hv).
  unfold make_dependency. simpl. rewrite SimpleSpec_star.
  eexists. split; [done|]. split; [done|]. apply contains_any_version.
Qed.

End WideningFacts.

(** C3 (the code departs from the claim).  The apt answer for [libbar] has
    the dependency [libssl (= 1:7.0.1-12)], whose constraint text
    [SimpleSpec] rejects.  [resolve] neither raises nor drops the edge: the
    package comes back with the dependency [ubuntu:libssl@*], which admits
    every version. *)
Theorem C3_rejected_constraint_becomes_wildcard :
  Semver.SimpleSpec "=1:7.0.1-12" = None
  /\ Scenario.resolve Scenario.libbar_dep
     = Generated
         [mkPackage Semver.instance "libbar" (1, 0, 0)%N "ubuntu"
            {[ mkDependency Semver.instance "libssl" [] "ubuntu" ]}]
         None
  /\ forall v, Semver.contains [] v = true.
Proof. split; [|split]; [reflexivity | reflexivity | intros v; reflexivity]. Qed.

(** ** Dependencies of another source *)

Section SourceFacts.
Context `{SV : SemanticVersion} `{H : !Host}.
Import PyStr UbuntuResolver.

Lemma ubuntu_packages_raises n e :
  ubuntu_packages n = Raise e ->
  e = SemverValueError \/ exists cls, e = HostFailure cls.
Proof.
  unfold ubuntu_packages. destruct (apt_show n) as [contents|cls].
  - destruct (String.eqb contents ""); [done|].
    intros ->%scan_raises. by left.
  - intros [= <-]. eauto.
Qed.

Lemma resolve_file_raises d e :
  raised (resolve_file d) = Some e ->
  e = SemverValueError \/ exists cls, e = HostFailure cls.
Proof.
  unfold resolve_file. destruct (file_to_packages (package d)) as [names f].
  destruct f as [cls|]; simpl; [intros [= <-]; eauto|].
  destruct names as [|n names]; simpl; [done|].
  destruct (coerce "0"); simpl; [done|]. intros [= <-]. by left.
Qed.

(** C4.  [resolve] ends with the error "can not resolve dependencies from
    other sources" exactly when the source of the dependency is not
    ["ubuntu"], and then nothing was yielded before it. *)
Theorem C4_resolve_rejects_other_sources d :
  (raised (resolve d) = Some CannotResolveOtherSources
   <-> source d <> "ubuntu")
  /\ (source d <> "ubuntu" -> yielded (resolve d) = []).
Proof.
  split; [split|].
  - intros Hr Hs. rewrite resolve_ubuntu in Hr by done.
    destruct (startswith (package d) "/").
    + cbv zeta in Hr.
      destruct (raised (resolve_file d)) as [e|] eqn:He; [|congruence].
      destruct (caught_by_resolve e); [done|].
      rewrite He in Hr. injection Hr as ->.
      by destruct (resolve_file_raises d _ He) as [?|[? ?]].
    + destruct (ubuntu_packages (package d)) as [l|e] eqn:He; [done|].
      injection Hr as ->.
      by destruct (ubuntu_packages_raises _ _ He) as [?|[? ?]].
  - intros Hs. by rewrite resolve_other_source.
  - intros Hs. by rewrite resolve_other_source.
Qed.

End SourceFacts.

(** C4, a run: [pip:cvedb@*] is refused before anything is yielded, and
    [ubuntu:libfoo@>=2.0.0] is not refused. *)
Lemma C4_resolve_rejects_other_sources_witness :
  raised (Scenario.resolve Scenario.pip_dep) = Some CannotResolveOtherSources
  /\ yielded (Scenario.resolve Scenario.pip_dep) = []
  /\ raised (Scenario.resolve Scenario.libfoo_dep)
     <> Some CannotResolveOtherSources.
Proof.
  assert (source Scenario.pip_dep <> "ubuntu") as Hpip by discriminate.
  destruct (C4_resolve_rejects_other_sources (H := Scenario.host)
              Scenario.pip_dep) as [[_ Hr] Hy].
  split; [exact (Hr Hpip)|]. split; [exact (Hy Hpip)|].
  intros Hfoo.
  apply (C4_resolve_rejects_other_sources (H := Scenario.host)
           Scenario.libfoo_dep) in Hfoo.
  apply Hfoo. reflexivity.
Defined.

(** ** Augmentation with native dependencies *)

Section AugmentFacts.
Context `{SV : SemanticVersion} `{H : !Host}.
Import UbuntuResolver.

Lemma update_dependencies_returns p natives :
  get_native_dependencies p = Returned natives ->
  update_dependencies p
  = Ok (mkPackage _ (name p) (version p) (package_source p)
                  (dependencies p ∪ list_to_set natives)).
Proof. intros Hn. unfold update_dependencies. by rewrite Hn. Qed.

(** C5.  When the native scanner reports the same set of dependencies for
    the package before and after the update, the second update returns the
    package unchanged: the merge is a union of sets. *)
Theorem C5_update_dependencies_idempotent p natives natives' :
  get_native_dependencies p = Returned natives ->
  (forall p1, update_dependencies p = Ok p1 ->
              get_native_dependencies p1 = Returned natives') ->
  list_to_set natives' =@{gset Dependency} list_to_set natives ->
  exists p1,
    update_dependencies p = Ok p1
    /\ update_dependencies p1 = Ok p1
    /\ dependencies p1 = dependencies p ∪ list_to_set natives.
Proof.
  intros Hn Hn' Hsame.
  pose proof (update_dependencies_returns p natives Hn) as Hp1.
  eexists. split; [exact Hp1|]. split; [|done].
  rewrite (update_dependencies_returns _ natives' (Hn' _ Hp1)). simpl.
  f_equal. f_equal. rewrite Hsame.
  by rewrite <- union_assoc_L, union_idemp_L.
Qed.

End AugmentFacts.

(** C5, a run: the scanner reports the C library twice for [pip:cvedb];
    one edge is added, and a second update adds nothing. *)
Lemma C5_update_dependencies_idempotent_witness :
  exists p1,
    UbuntuResolver.update_dependencies (H := Scenario.host) Scenario.cvedb
    = Ok p1
    /\ UbuntuResolver.update_dependencies (H := Scenario.host) p1 = Ok p1
    /\ dependencies p1
       = dependencies Scenario.cvedb
         ∪ list_to_set [Scenario.native_libc; Scenario.native_libc].
Proof.
  apply (C5_update_dependencies_idempotent (H := Scenario.host)
           Scenario.cvedb
           [Scenario.native_libc; Scenario.native_libc]
           [Scenario.native_libc; Scenario.native_libc]);
    reflexivity.
Defined.

Example C5_one_edge_added :
  match UbuntuResolver.update_dependencies (H := Scenario.host)
          Scenario.cvedb with
  | Ok p1 => elements (dependencies p1) = [Scenario.native_libc]
  | Raise _ => False
  end.
Proof. reflexivity. Qed.

(** ** Ordering of resolvers *)

Section OrderFacts.

(** [UbuntuResolver.__lt__] answers [False] whatever it is compared with. *)
Lemma ubuntu_lt_false base_lt other : resolver_lt base_lt Ubuntu other = false.
Proof. reflexivity. Qed.

(** The override keeps irreflexivity and transitivity. *)
Lemma resolver_lt_strict base_lt :
  strict_weak_order base_lt ->
  (forall a, resolver_lt base_lt a a = false)
  /\ (forall a b c, resolver_lt base_lt a b = true ->
                    resolver_lt base_lt b c = true ->
                    resolver_lt base_lt a c = true).
Proof.
  intros [Hirr Htrans _]. split.
  - intros []; [done | apply Hirr].
  - intros [|a] [|b] c; simpl; try done. apply Htrans.
Qed.

End OrderFacts.

(** ** Version lines with an epoch and a revision *)

Section VersionLineFacts.
Context `{SV : SemanticVersion} `{H : !Host}.
Import PyStr UbuntuResolver.

Lemma depends_is_not_version line :
  startswith line "Depends: " = true -> startswith line "Version: " = false.
Proof.
  unfold startswith. destruct line as [|c line]; [done|].
  cbn [String.prefix].
  destruct (ascii_dec "D" c) as [<-|]; [|done]. intros _.
  destruct (ascii_dec "V" "D") as [Heq|]; [discriminate Heq | reflexivity].
Qed.


End VersionLineFacts.



(** The package built from "Version: 1:2:3-4" has the version 3.0.0. *)
Example scan_second_epoch_group :
  Semver.coerce "2:3" = Some (2, 0, 0)%N
  /\ UbuntuResolver.scan (SV := Semver.instance) "libfoo"
       ["Version: 1:2:3-4"; "Depends: libc6"] None []
     = Ok [mkPackage Semver.instance "libfoo" (3, 0, 0)%N "ubuntu"
             (list_to_set
                [mkDependency Semver.instance "libc6" [] "ubuntu"])].
Proof. split; reflexivity. Qed.

(** The whole answer for [libfoo], through [resolve]. *)
Example resolve_libfoo :
  Scenario.resolve Scenario.libfoo_dep
  = Generated
      [mkPackage Semver.instance "libfoo" (2, 31, 0)%N "ubuntu"
         (list_to_set
            [mkDependency Semver.instance "libc6"
               [(Semver.Ge_, (2, 29, 0)%N)] "ubuntu";
             mkDependency Semver.instance "libgcc-s1"
               [(Semver.Ge_, (3, 4, 0)%N)] "ubuntu"])]
      None.
Proof. reflexivity. Qed.

(** Repeated "digits, colon" groups are all taken as epochs, and the
    version ends at the first hyphen even when a later one opens the
    revision. *)
Example ubuntu_version_match_greedy :
  Re.ubuntu_version_match "1:2:3-4" = Some "3"
  /\ Re.ubuntu_version_match "1:2.0-rc1-3" = Some "2.0".
Proof. split; reflexivity. Qed.

(** ** Failures of the host *)

Section FailureFacts.
Context `{SV : SemanticVersion} `{H : !Host}.
Import PyStr UbuntuResolver.

Lemma ubuntu_packages_command_failed n cls :
  apt_show n = Failed cls -> ubuntu_packages n = Raise (HostFailure cls).
Proof. intros Ha. unfold ubuntu_packages. by rewrite Ha. Qed.

(** C8, as amended.  For a dependency on a file path, a [ValueError] or a
    [CalledProcessError] of the file-to-package lookup is handled inside
    [resolve]: nothing is yielded and nothing is raised.  For a dependency
    on a package name there is no handler: whatever [ubuntu_packages]
    raises (a failed apt command, a version text [Version.coerce] refuses)
    ends [resolve] before a package is yielded. *)
Theorem C8_resolve_recovers_file_lookup_failures d :
  source d = "ubuntu" ->
  (startswith (package d) "/" = true ->
   forall cls,
     (file_to_packages (package d)).2 = Some cls ->
     cls = ValueError \/ cls = CalledProcessError ->
     resolve d = Generated [] None)
  /\ (startswith (package d) "/" = false ->
      forall e,
        ubuntu_packages (package d) = Raise e ->
        resolve d = Generated [] (Some e)).
Proof.
  intros Hs. rewrite (resolve_ubuntu d Hs). split; intros Hf; rewrite Hf.
  - intros cls Hcls Hclass. unfold resolve_file.
    destruct (file_to_packages (package d)) as [names f]. simpl in Hcls.
    subst f. simpl. by destruct Hclass as [-> | ->].
  - intros e He. by rewrite He.
Qed.

End FailureFacts.

(** C8, a run of the amended statement: the lookup of [/usr/lib/broken]
    fails with [CalledProcessError] and [resolve] ends quietly; the apt
    command fails for [libgone] and [resolve] ends with that error. *)
Lemma C8_resolve_recovers_file_lookup_failures_witness :
  Scenario.resolve Scenario.broken_file_dep = Generated [] None
  /\ Scenario.resolve Scenario.libgone_dep
     = Generated [] (Some (HostFailure CalledProcessError)).
Proof.
  split.
  - destruct (C8_resolve_recovers_file_lookup_failures (H := Scenario.host)
                Scenario.broken_file_dep eq_refl) as [Hfile _].
    apply (Hfile eq_refl CalledProcessError eq_refl). by right.
  - destruct (C8_resolve_recovers_file_lookup_failures (H := Scenario.host)
                Scenario.libgone_dep eq_refl) as [_ Hname].
    apply (Hname eq_refl). reflexivity.
Defined.

(** C8 as stated fails: the apt command fails for [ubuntu:libgone@*] and
    the error leaves [resolve]. *)
Lemma C8_command_failure_propagates :
  ~ (forall d cls,
       source d = "ubuntu" ->
       apt_show (Host := Scenario.host) (package d) = Failed cls ->
       yielded (Scenario.resolve d) = []
       /\ raised (Scenario.resolve d) = None).
Proof.
  intros Hclaim.
  destruct (Hclaim Scenario.libgone_dep CalledProcessError eq_refl eq_refl)
    as [_ Hr].
  change (Some (HostFailure CalledProcessError) = None) in Hr.
  discriminate Hr.
Qed.

(** ** [_popularity] *)

(** C9.  Whatever the argument and the state of the file system,
    [_popularity] raises [NameError] for [arch] in its first statement and
    so returns no value; [urllib], read on the download path, is not
    defined either. *)
Theorem C9_popularity_raises_name_error :
  forall arch_supported dbfile_exists packagename,
    Utils._popularity arch_supported dbfile_exists packagename
    = Raise (NameNotDefined "arch")
    /\ class_of (NameNotDefined "arch") = NameError
    /\ Utils.load_global "urllib" = Raise (NameNotDefined "urllib")
    /\ forall value,
         Utils._popularity arch_supported dbfile_exists packagename
         <> Ok value.
Proof.
  intros. repeat split; try reflexivity.
  intros value Hv.
  change (Raise (NameNotDefined "arch") = Ok value) in Hv. discriminate Hv.
Qed.

(** The other names the body reads are bound. *)
Example popularity_other_names_bound :
  Forall (fun n => Utils.load_global n = Ok tt)
         ["popdb"; "os"; "logger"; "gzip"; "print"; "re"; "ValueError"].
Proof. repeat constructor. Qed.

(** ** File paths *)

Section FilePathFacts.
Context `{SV : SemanticVersion} `{H : !Host}.
Import PyStr UbuntuResolver.

Lemma resolve_file_path_yielded d :
  source d = "ubuntu" ->
  startswith (package d) "/" = true ->
  yielded (resolve d) = yielded (resolve_file d).
Proof.
  intros Hs Hf. rewrite (resolve_ubuntu d Hs), Hf. cbv zeta.
  destruct (raised (resolve_file d)) as [e|]; [|done].
  by destruct (caught_by_resolve e).
Qed.

(** C10.  For a dependency on a file path, [resolve] yields at most one
    package.  A yielded package means that the lookup returned at least one
    owner; its name is the path, its version [Version.coerce("0")], its
    source that of the dependency, and its dependencies are exactly the
    unconstrained Ubuntu dependencies on the owners.  When the lookup
    returns no owner nothing is yielded; when it returns owners, one package
    is yielded. *)
Theorem C10_resolve_file_path d :
  source d = "ubuntu" ->
  startswith (package d) "/" = true ->
  let owners := (file_to_packages (package d)).1 in
  length (yielded (resolve d)) <= 1
  /\ (forall p,
        p ∈ yielded (resolve d) ->
        owners <> []
        /\ name p = package d
        /\ coerce "0" = Some (version p)
        /\ package_source p = "ubuntu"
        /\ (forall dep,
              dep ∈ dependencies p <->
              exists owner,
                owner ∈ owners
                /\ dep = mkDependency _ owner any_version "ubuntu")
        /\ (forall dep v,
              dep ∈ dependencies p ->
              contains (semantic_version dep) v = true))
  /\ (owners = [] ->
      yielded (resolve d) = []
      /\ ((file_to_packages (package d)).2 = None ->
          resolve d = Generated [] None))
  /\ (forall zero,
        owners <> [] ->
        (file_to_packages (package d)).2 = None ->
        coerce "0" = Some zero ->
        resolve d
        = Generated
            [mkPackage _ (package d) zero "ubuntu"
                       (list_to_set (map file_dependency owners))]
            None).
Proof.
  intros Hs Hf owners.
  pose proof (resolve_file_path_yielded d Hs Hf) as Hy.
  assert (forall dep p,
            p = mkPackage _ (package d) (version p) (source d)
                  (list_to_set (map file_dependency owners)) ->
            dep ∈ dependencies p <->
            exists owner,
              owner ∈ owners /\ dep = mkDependency _ owner any_version "ubuntu")
    as Hdeps.
  { intros dep p ->. simpl. rewrite elem_of_list_to_set, list_elem_of_fmap.
    split; intros [owner [? ?]]; exists owner; by split. }
  split; [|split; [|split]].
  - rewrite Hy. unfold resolve_file.
    destruct (file_to_packages (package d)) as [names [cls|]]; simpl; [lia|].
    destruct names; simpl; [lia|]. destruct (coerce "0"); simpl; lia.
  - intros p Hp. rewrite Hy in Hp.
    apply resolve_file_yielded in Hp as (_ & Hne & Hz & _ & Hpkg).
    split; [done|]. split; [by rewrite Hpkg|]. split; [done|].
    split; [by rewrite Hpkg, <- Hs|]. split.
    + intros dep. by apply Hdeps.
    + intros dep v [owner [_ ->]]%(Hdeps dep p Hpkg). simpl.
      apply contains_any_version.
  - intros Hnone. rewrite Hy, (resolve_ubuntu d Hs), Hf.
    unfold resolve_file. subst owners.
    destruct (file_to_packages (package d)) as [names f]. simpl in Hnone.
    subst names. split; [by destruct f|]. simpl. by intros ->.
  - intros zero Hne Hok Hz. rewrite (resolve_ubuntu d Hs), Hf.
    unfold resolve_file. subst owners.
    destruct (file_to_packages (package d)) as [names f]; simpl in *.
    subst f. destruct names as [|n names]; [done|]. simpl.
    by rewrite Hz, Hs.
Qed.

End FilePathFacts.

(** C10, a run: the path [/usr/lib/libfoo.so.1] is owned by [libfoo]. *)
Lemma C10_resolve_file_path_witness :
  Scenario.resolve Scenario.file_dep
  = Generated
      [mkPackage Semver.instance "/usr/lib/libfoo.so.1" (0, 0, 0)%N "ubuntu"
         (list_to_set
            (map (UbuntuResolver.file_dependency (SV := Semver.instance))
                 ["libfoo"]))]
      None.
Proof.
  destruct (C10_resolve_file_path (H := Scenario.host) Scenario.file_dep
              eq_refl eq_refl) as (_ & _ & _ & Hone).
  apply (Hone (0, 0, 0)%N); [discriminate | reflexivity | reflexivity].
Defined.

(** ** More string primitives *)

Example split_by_1 :
  PyText.split_by ": " 0 "libc6: /lib/libc.so.6" = ["libc6"; "/lib/libc.so.6"].
Proof. reflexivity. Qed.
Example split_by_2 : PyText.split_by ": " 0 "a: b: c" = ["a"; "b"; "c"].
Proof. reflexivity. Qed.
Example split_by_3 : PyText.split_by ": " 0 "a:b" = ["a:b"].
Proof. reflexivity. Qed.
Example splitlines_1 :
  PyText.splitlines 0
    (String "a" (String "013" (String "010" (String "010" (String "b"
       (String "010" EmptyString))))))
  = ["a"; ""; "b"].
Proof. reflexivity. Qed.
Example splitlines_2 : PyText.splitlines 0 "" = [].
Proof. reflexivity. Qed.

(** ** The patterns, once more *)

Section PatternFacts.
Import PyStr.

Lemma string_app_cons x (a b : string) : String x a ++ b = String x (a ++ b).
Proof. reflexivity. Qed.

Lemma string_app_nil_l (b : string) : "" ++ b = b.
Proof. reflexivity. Qed.

Lemma string_app_assoc (a b c : string) : (a ++ b) ++ c = a ++ (b ++ c).
Proof.
  induction a as [|x a IH]; [done|].
  rewrite !string_app_cons. by rewrite IH.
Qed.

Lemma string_app_nil_r (a : string) : a ++ "" = a.
Proof.
  induction a as [|x a IH]; [done|]. rewrite string_app_cons. by rewrite IH.
Qed.

Lemma all_chars_app p (a b : string) :
  all_chars p (a ++ b) = all_chars p a && all_chars p b.
Proof.
  induction a as [|x a IH]; simpl; [done|]. by rewrite IH, andb_assoc.
Qed.

Lemma all_chars_impl (p q : ascii -> bool) s :
  (forall c, p c = true -> q c = true) ->
  all_chars p s = true -> all_chars q s = true.
Proof.
  intros Hpq. induction s as [|c s IH]; simpl; [done|].
  intros [Hc Hs]%andb_prop. by rewrite (Hpq c Hc), IH.
Qed.

(** What [span] returns: a split of the text, the first part within the
    class, the second one empty or opening outside the class. *)
Lemma span_spec p s :
  s = (span p s).1 ++ (span p s).2
  /\ all_chars p (span p s).1 = true
  /\ match (span p s).2 with
     | EmptyString => True
     | String c _ => p c = false
     end.
Proof.
  induction s as [|c s (IH1 & IH2 & IH3)]; simpl; [done|].
  destruct (p c) eqn:Hc; simpl; [|done].
  destruct (span p s) as [a b]. simpl in *.
  rewrite string_app_cons, <- IH1, Hc, IH2. done.
Qed.

Lemma span_all p s : all_chars p s = true -> span p s = (s, EmptyString).
Proof.
  induction s as [|c s IH]; simpl; [done|].
  intros [Hc Hs]%andb_prop. by rewrite Hc, IH.
Qed.

Lemma digit_not_hyphen c : is_digit c = true -> is_hyphen c = false.
Proof. by destruct c as [[] [] [] [] [] [] [] []]. Qed.

Lemma digit_not_colon c : is_digit c = true -> Ascii.eqb c ":" = false.
Proof. by destruct c as [[] [] [] [] [] [] [] []]. Qed.

(** The text left by the greedy epochs is a suffix, after a prefix made of
    digits and colons only. *)
Lemma skip_epochs_suffix s :
  forall d seen,
    all_chars is_digit d = true ->
    exists pre,
      d ++ s = pre ++ Re.skip_epochs (d ++ s) seen s
      /\ all_chars (fun c => is_digit c || Ascii.eqb c ":") pre = true.
Proof.
  induction s as [|c t IH]; intros d seen Hd; simpl.
  - exists EmptyString. by split.
  - destruct (is_digit c) eqn:Hc.
    + destruct (IH (d ++ String c EmptyString) true) as [pre [Hpre Hall]].
      { by rewrite all_chars_app, Hd; simpl; rewrite Hc. }
      rewrite string_app_assoc, string_app_cons, string_app_nil_l in Hpre.
      by exists pre.
    + destruct (Ascii.eqb_spec c ":") as [->|Hne]; simpl;
        [destruct seen; simpl|].
      * destruct (IH EmptyString false eq_refl) as [pre [Hpre Hall]].
        rewrite !string_app_nil_l in Hpre.
        exists (d ++ String ":" pre). split.
        -- rewrite string_app_assoc, string_app_cons. by rewrite <- Hpre.
        -- rewrite all_chars_app. simpl. rewrite Hall, andb_true_r.
           apply (all_chars_impl is_digit); [|done].
           intros c ->. done.
      * exists EmptyString. by split.
      * exists EmptyString. by split.
Qed.

(** The text left by the greedy epochs does not open with an epoch. *)
Lemma skip_epochs_no_epoch s :
  forall d seen,
    all_chars is_digit d = true ->
    (seen = true <-> d <> EmptyString) ->
    Re.begins_with_epoch (Re.skip_epochs (d ++ s) seen s) = false.
Proof.
  induction s as [|c t IH]; intros d seen Hd Hseen; simpl.
  - rewrite string_app_nil_r. unfold Re.begins_with_epoch.
    rewrite (span_all _ _ Hd). by destruct d.
  - destruct (is_digit c) eqn:Hc.
    + specialize (IH (d ++ String c EmptyString) true).
      rewrite string_app_assoc, string_app_cons, string_app_nil_l in IH.
      apply IH.
      * by rewrite all_chars_app, Hd; simpl; rewrite Hc.
      * split; [|done]. intros _. by destruct d.
    + assert (Re.begins_with_epoch (d ++ String c t)
              = match d with
                | EmptyString => false
                | String _ _ => Ascii.eqb c ":"
                end) as Hbegin.
      { unfold Re.begins_with_epoch. rewrite (span_stop _ _ _ _ Hd Hc).
        destruct d; [done|].
        destruct (Ascii.eqb_spec c ":") as [->|Hne]; [done|].
        destruct t; by destruct c as [[] [] [] [] [] [] [] []]. }
      destruct (Ascii.eqb_spec c ":") as [->|Hne]; simpl;
        [destruct seen eqn:Hs; simpl|].
      * apply (IH EmptyString false eq_refl). split; [done|]. by intros [].
      * rewrite Hbegin. destruct d; [done|].
        destruct Hseen as [_ Hseen]. by specialize (Hseen ltac:(done)).
      * rewrite Hbegin. by destruct d.
Qed.

End PatternFacts.

Section VersionGroupFacts.
Import PyStr.

Lemma skip_epochs_stop_end start u :
  forall seen,
    match span is_digit u with
    | (ds, rest) =>
        (forall t, rest <> String ":" t) \/ (ds = EmptyString /\ seen = false)
    end ->
    Re.skip_epochs start seen u = start.
Proof.
  induction u as [|c u IH]; simpl; intros seen Hu; [done|].
  destruct (is_digit c) eqn:Hc.
  - apply IH. destruct (span is_digit u) as [ds rest].
    destruct Hu as [Hu|[Hu _]]; [by left | done].
  - destruct (Ascii.eqb_spec c ":") as [->|Hne]; [|done].
    destruct seen; [|done]. simpl.
    destruct Hu as [Hu|[_ Hu]]; [by destruct (Hu u) | done].
Qed.

(** Cutting at the first hyphen does not change the leading digits nor
    what follows them. *)
Lemma span_digit_cut r :
  span is_digit (span (fun c => negb (is_hyphen c)) r).1
  = ((span is_digit r).1,
     (span (fun c => negb (is_hyphen c)) (span is_digit r).2).1).
Proof.
  induction r as [|c r IH]; simpl; [done|].
  destruct (is_digit c) eqn:Hc.
  - rewrite (digit_not_hyphen c Hc). simpl.
    destruct (span (fun c => negb (is_hyphen c)) r) as [a b] eqn:Hcut.
    simpl in *. rewrite Hc. rewrite IH.
    by destruct (span is_digit r).
  - simpl. destruct (is_hyphen c) eqn:Hh; simpl; [done|].
    destruct (span (fun c => negb (is_hyphen c)) r) as [a b].
    simpl. by rewrite Hc.
Qed.

Lemma begins_with_epoch_cut r :
  Re.begins_with_epoch (span (fun c => negb (is_hyphen c)) r).1
  = Re.begins_with_epoch r.
Proof.
  unfold Re.begins_with_epoch. rewrite span_digit_cut.
  destruct (span is_digit r) as [ds rest]. simpl.
  destruct ds as [|d ds]; [done|].
  destruct rest as [|c rest]; simpl; [done|].
  destruct (is_hyphen c) eqn:Hh; simpl.
  - by destruct c as [[] [] [] [] [] [] [] []].
  - by destruct (span (fun c => negb (is_hyphen c)) rest).
Qed.

(** X1.  For every text, the group [version] of [_ubuntu_version] is a
    piece of the text without hyphen: before it come only digits and
    colons, after it the text ends or a hyphen follows. *)
Theorem X1_version_group_is_a_piece s :
  exists pre group post,
    Re.ubuntu_version_match s = Some group
    /\ s = pre ++ group ++ post
    /\ all_chars (fun c => is_digit c || Ascii.eqb c ":") pre = true
    /\ all_chars (fun c => negb (is_hyphen c)) group = true
    /\ (post = EmptyString \/ startswith post "-" = true).
Proof.
  destruct (skip_epochs_suffix s EmptyString false eq_refl)
    as [pre [Hpre Hall]].
  rewrite !string_app_nil_l in Hpre.
  destruct (span_spec (fun c => negb (is_hyphen c))
                      (Re.skip_epochs s false s)) as (Hsplit & Hgroup & Hpost).
  exists pre, (span (fun c => negb (is_hyphen c)) (Re.skip_epochs s false s)).1,
    (span (fun c => negb (is_hyphen c)) (Re.skip_epochs s false s)).2.
  split; [done|]. split; [by rewrite <- Hsplit|].
  split; [done|]. split; [done|].
  destruct (span _ _).2 as [|c post]; [by left|right].
  unfold startswith. simpl. apply negb_false_iff in Hpost.
  apply Ascii.eqb_eq in Hpost as ->. by destruct post.
Qed.

(** X2.  Matching is idempotent: the group found in a text is matched
    whole when it is given to the pattern again. *)
Theorem X2_version_match_idempotent s group :
  Re.ubuntu_version_match s = Some group ->
  Re.ubuntu_version_match group = Some group.
Proof.
  unfold Re.ubuntu_version_match. intros [= <-].
  set (r := Re.skip_epochs s false s).
  assert (Re.begins_with_epoch r = false) as Hr.
  { pose proof (skip_epochs_no_epoch s EmptyString false eq_refl) as Hno.
    rewrite string_app_nil_l in Hno. apply Hno. split; [done|]. by intros []. }
  destruct (span_spec (fun c => negb (is_hyphen c)) r) as (_ & Hgroup & _).
  set (g := (span (fun c => negb (is_hyphen c)) r).1) in *.
  assert (Re.begins_with_epoch g = false) as Hg.
  { unfold g. by rewrite begins_with_epoch_cut. }
  rewrite (skip_epochs_stop_end g g false (begins_with_epoch_false g Hg)).
  by rewrite (span_all _ _ Hgroup).
Qed.

End VersionGroupFacts.

(** X2, a run: the group of "1:2.31-0ubuntu9.9" is "2.31", and "2.31" is
    its own group. *)
Lemma X2_version_match_idempotent_witness :
  Re.ubuntu_version_match "2.31" = Some "2.31".
Proof.
  apply (X2_version_match_idempotent "1:2.31-0ubuntu9.9" "2.31").
  reflexivity.
Defined.

(** ** Reading back a formatted [Depends: ] line *)

Section DependsRoundTrip.
Context `{SV : SemanticVersion}.
Import PyStr UbuntuResolver.

Lemma before_last_snoc c v :
  before_last c (v ++ String c EmptyString) = Some v.
Proof.
  induction v as [|d v IH].
  - rewrite string_app_nil_l. simpl. by rewrite Ascii.eqb_refl.
  - rewrite string_app_cons. simpl. by rewrite IH.
Qed.

Lemma span_prefix p a rest :
  all_chars p a = true ->
  match rest with
  | EmptyString => True
  | String c _ => p c = false
  end ->
  span p (a ++ rest) = (a, rest).
Proof.
  intros Ha Hrest. destruct rest as [|c rest].
  - rewrite string_app_nil_r. by apply span_all.
  - by apply span_stop.
Qed.

(** The groups of a formatted entry, after any blanks. *)
Lemma pattern_match_formatted blanks pkg ver :
  all_chars is_space blanks = true ->
  pkg <> EmptyString ->
  all_chars (fun c => negb (is_space c)) pkg = true ->
  all_chars (fun c => negb (is_newline c)) ver = true ->
  Re.pattern_match (blanks ++ format_dependency (pkg, ver))
  = Some {| Re.g_package := pkg; Re.g_version := Some ver |}.
Proof.
  intros Hb Hne Hp Hv. unfold Re.pattern_match, format_dependency. simpl.
  change (pkg ++ " (" ++ ver ++ ")")
    with (pkg ++ String " " (String "(" (ver ++ ")"))).
  assert (span is_space (blanks ++ pkg ++ String " " (String "(" (ver ++ ")")))
          = (blanks, pkg ++ String " " (String "(" (ver ++ ")")))) as ->.
  { apply span_prefix; [done|]. destruct pkg as [|c pkg]; [done|].
    rewrite string_app_cons. simpl in Hp.
    apply andb_prop in Hp as [Hc _]. by apply negb_true_iff in Hc. }
  simpl. rewrite (span_stop _ pkg " " _ Hp eq_refl). simpl.
  assert (span (fun c => negb (is_newline c)) (ver ++ ")")
          = (ver ++ ")", EmptyString)) as ->.
  { apply span_all. by rewrite all_chars_app, Hv. }
  simpl. by rewrite before_last_snoc.
Qed.

Lemma split_no_sep sep a :
  all_chars (fun c => negb (Ascii.eqb c sep)) a = true -> split sep a = [a].
Proof.
  induction a as [|c a IH]; simpl; [done|].
  intros [Hc Ha]%andb_prop. apply negb_true_iff in Hc.
  by rewrite Hc, IH.
Qed.

Lemma split_app_sep sep a b :
  all_chars (fun c => negb (Ascii.eqb c sep)) a = true ->
  split sep (a ++ String sep b) = a :: split sep b.
Proof.
  induction a as [|c a IH]; intros Ha.
  - rewrite string_app_nil_l. simpl. by rewrite Ascii.eqb_refl.
  - rewrite string_app_cons. simpl in *.
    apply andb_prop in Ha as [Hc Ha]. apply negb_true_iff in Hc.
    by rewrite Hc, IH.
Qed.

Lemma split_join_comma x rest :
  Forall (fun piece => all_chars (fun c => negb (is_comma c)) piece = true)
         (x :: rest) ->
  split "," (PyText.join ", " (x :: rest))
  = x :: map (fun piece => " " ++ piece) rest.
Proof.
  revert x. induction rest as [|y rest IH]; intros x Hall.
  - simpl. apply split_no_sep. by inversion Hall.
  - inversion Hall as [|? ? Hx Hrest]; subst.
    change (PyText.join ", " (x :: y :: rest))
      with (x ++ String "," (" " ++ PyText.join ", " (y :: rest))).
    rewrite (split_app_sep "," x _ Hx). f_equal.
    assert (" " ++ PyText.join ", " (y :: rest)
            = PyText.join ", " ((" " ++ y) :: rest)) as ->.
    { destruct rest; [done|]. unfold PyText.join. simpl.
      by rewrite !string_app_cons. }
    rewrite IH; [done|].
    inversion Hrest as [|? ? Hy Hrest']; subst. by constructor.
Qed.

Lemma well_formed_entry_spec entry :
  well_formed_entry entry = true ->
  entry.1 <> EmptyString
  /\ all_chars (fun c => negb (is_space c)) entry.1 = true
  /\ all_chars (fun c => negb (is_newline c)) entry.2 = true
  /\ all_chars (fun c => negb (is_comma c)) (format_dependency entry) = true.
Proof.
  unfold well_formed_entry, format_dependency.
  intros [[Hne Hname]%andb_prop Hver]%andb_prop.
  split; [|split; [|split]].
  - intros Heq. by rewrite Heq in Hne.
  - apply (all_chars_impl _ _ _ (fun c H => proj1 (andb_prop _ _ H)) Hname).
  - apply (all_chars_impl _ _ _ (fun c H => proj2 (andb_prop _ _ H)) Hver).
  - rewrite !all_chars_app.
    rewrite (all_chars_impl _ _ _ (fun c H => proj2 (andb_prop _ _ H)) Hname).
    by rewrite (all_chars_impl _ _ _ (fun c H => proj1 (andb_prop _ _ H)) Hver).
Qed.

Lemma formatted_without_comma entries :
  Forall (fun entry => well_formed_entry entry = true) entries ->
  Forall (fun piece => all_chars (fun c => negb (is_comma c)) piece = true)
         (map format_dependency entries).
Proof.
  induction 1 as [|entry entries Hentry _ IH]; [constructor|].
  constructor; [|exact IH]. by apply well_formed_entry_spec.
Qed.

(** The pieces between the commas of a formatted line. *)
Lemma formatted_pieces first rest :
  Forall (fun entry => well_formed_entry entry = true) (first :: rest) ->
  split "," (slice_from 9 (format_depends (first :: rest)))
  = format_dependency first
      :: map (fun entry => " " ++ format_dependency entry) rest.
Proof.
  intros Hall. unfold format_depends.
  change 9 with (String.length "Depends: "). rewrite slice_from_app.
  change (map format_dependency (first :: rest))
    with (format_dependency first :: map format_dependency rest).
  rewrite (split_join_comma (format_dependency first)
             (map format_dependency rest)).
  - by rewrite map_map.
  - apply (formatted_without_comma (first :: rest) Hall).
Qed.

(** X3.  [parse_depends] reads back a line written in the format of the
    source's example: for a non-empty list of well-formed entries it
    returns, in order, each name with the constraint text that the [try]
    block keeps for it. *)
Theorem X3_parse_depends_reads_back entries :
  entries <> [] ->
  Forall (fun entry => well_formed_entry entry = true) entries ->
  parse_depends (format_depends entries)
  = Ok (map (fun entry => (entry.1, checked_version (Some entry.2))) entries).
Proof.
  intros Hne Hall. destruct entries as [|[pkg ver] rest]; [done|]. clear Hne.
  unfold parse_depends. rewrite (formatted_pieces _ _ Hall).
  inversion Hall as [|? ? Hfirst Hrest]; subst.
  apply well_formed_entry_spec in Hfirst as (Hn & Hp & Hv & _).
  cbn [for_each map].
  pose proof (pattern_match_formatted "" pkg ver eq_refl Hn Hp Hv) as Hm.
  rewrite string_app_nil_l in Hm. rewrite Hm.
  simpl. clear Hm Hn Hp Hv Hall.
  induction Hrest as [|[pkg' ver'] rest Hentry _ IH]; [done|].
  apply well_formed_entry_spec in Hentry as (Hn & Hp & Hv & _).
  cbn [for_each map].
  rewrite (pattern_match_formatted " " pkg' ver' eq_refl Hn Hp Hv).
  simpl. destruct (for_each _ _) as [r|e]; [|done].
  simpl in *. by injection IH as <-.
Qed.

(** The entry appended for a formatted piece, after any blanks. *)
Lemma dependency_text_formatted blanks entry :
  all_chars is_space blanks = true ->
  well_formed_entry entry = true ->
  dependency_text (blanks ++ format_dependency entry)
  = (entry.1, checked_version (Some entry.2)).
Proof.
  intros Hb (Hn & Hp & Hv & _)%well_formed_entry_spec.
  unfold dependency_text. destruct entry as [pkg ver].
  by rewrite (pattern_match_formatted blanks pkg ver Hb Hn Hp Hv).
Qed.

End DependsRoundTrip.

(** ** The loop of [ubuntu_packages], line by line *)

Section ScanSteps.
Context `{SV : SemanticVersion} `{H : !Host}.
Import PyStr UbuntuResolver.

Lemma remove_clean c s :
  all_chars (fun d => negb (Ascii.eqb d c)) (remove c s) = true.
Proof.
  induction s as [|d s IH]; simpl; [done|].
  destruct (Ascii.eqb d c) eqn:Hd; simpl; [done|]. by rewrite Hd.
Qed.

(** X4.  The constraint text kept for a dependency has no blank and is
    one [SimpleSpec] accepts; it is the wildcard, or the text of the line
    with its blanks removed. *)
Theorem X4_checked_version_is_clean dep_version :
  all_chars (fun c => negb (is_space c)) (checked_version dep_version) = true
  /\ is_Some (SimpleSpec (checked_version dep_version))
  /\ (checked_version dep_version = "*"
      \/ exists v, dep_version = Some v
                   /\ checked_version dep_version = remove " " v
                   /\ is_Some (SimpleSpec (remove " " v))).
Proof.
  split; [|split; [apply checked_version_parses|]].
  - unfold checked_version. destruct dep_version as [v|]; [|done].
    destruct (SimpleSpec _); [apply remove_clean | done].
  - unfold checked_version. destruct dep_version as [v|]; [|by left].
    rewrite remove_idempotent.
    destruct (SimpleSpec (remove " " v)) eqn:Hv; [right|by left].
    exists v. by rewrite Hv.
Qed.

Lemma for_each_map {A B C} (f : B -> res C) (h : A -> B) (g : A -> C) l :
  (forall a, f (h a) = Ok (g a)) -> for_each f (map h l) = Ok (map g l).
Proof.
  intros Hf. induction l as [|a l IH]; simpl; [done|].
  by rewrite Hf, IH.
Qed.

Lemma parse_depends_exact line :
  parse_depends line
  = Ok (map dependency_text (split "," (slice_from 9 line))).
Proof.
  unfold parse_depends.
  rewrite <- (map_id (split "," (slice_from 9 line))) at 1.
  apply for_each_map. intros dep.
  unfold dependency_text. by destruct (pattern_match_total dep) as [g ->].
Qed.

Lemma make_dependency_exact dep :
  make_dependency (dependency_text dep) = Ok (dependency_of dep).
Proof.
  unfold make_dependency, dependency_of.
  assert (is_Some (SimpleSpec (dependency_text dep).2)) as [spec Hspec].
  { unfold dependency_text. destruct (Re.pattern_match dep); simpl.
    - apply checked_version_parses.
    - rewrite SimpleSpec_star. eauto. }
  by rewrite Hspec.
Qed.

(** A [Depends: ] line read while a version is pending. *)
Lemma scan_step_depends package_name line rest v packages :
  startswith line "Version: " = false ->
  startswith line "Depends: " = true ->
  scan package_name (line :: rest) (Some v) packages
  = scan package_name rest None
         (packages ++ [mkPackage _ package_name v ubuntu_name
                                 (list_to_set (depends_of line))])%list.
Proof.
  intros Hv Hd. simpl. rewrite Hv, Hd, parse_depends_exact. simpl.
  by rewrite (for_each_map make_dependency dependency_text dependency_of _
                make_dependency_exact).
Qed.

End ScanSteps.

(** ** What [ubuntu_packages] returns *)

Section PackagesFacts.
Context `{SV : SemanticVersion} `{H : !Host}.
Import PyStr UbuntuResolver.

(** A property of every package the loop can build holds of every package
    it returns. *)
Lemma scan_invariant (Q : Package -> Prop) package_name lines :
  (forall v line,
     Q (mkPackage _ package_name v ubuntu_name
                  (list_to_set (depends_of line)))) ->
  forall version packages result,
    Forall Q packages ->
    scan package_name lines version packages = Ok result ->
    Forall Q result.
Proof.
  intros HQ. induction lines as [|line rest IH];
    intros version packages result Hpk.
  - by intros [= <-].
  - destruct (startswith line "Version: ") eqn:Hv.
    + simpl. rewrite Hv. unfold Re.ubuntu_version_match.
      destruct (coerce _); [by apply IH | done].
    + destruct version as [v|].
      * destruct (startswith line "Depends: ") eqn:Hd.
        -- rewrite (scan_step_depends _ _ _ _ _ Hv Hd). apply IH.
           apply Forall_app. split; [done|]. by constructor.
        -- simpl. rewrite Hv, Hd. by apply IH.
      * simpl. rewrite Hv. by apply IH.
Qed.

Lemma split_pieces_clean sep s :
  Forall (fun piece => all_chars (fun c => negb (Ascii.eqb c sep)) piece = true)
         (split sep s).
Proof.
  induction s as [|c s IH]; simpl; [by constructor|].
  destruct (Ascii.eqb c sep) eqn:Hc; [by constructor|].
  destruct (split sep s) as [|h r].
  - constructor; [|done]. simpl. by rewrite Hc.
  - inversion IH as [|? ? Hh Hr]; subst.
    constructor; [|done]. simpl. by rewrite Hc.
Qed.

(** The group [package] has no blank and only characters of the text. *)
Lemma dependency_text_package q dep :
  all_chars (fun c => negb (is_space c)) (dependency_text dep).1 = true
  /\ (all_chars q dep = true -> all_chars q (dependency_text dep).1 = true).
Proof.
  unfold dependency_text, Re.pattern_match.
  destruct (span_spec is_space dep) as (Hdep & _ & _).
  destruct (span_spec (fun c => negb (is_space c)) (span is_space dep).2)
    as (Hs1 & Hpkg & _).
  destruct (span (fun c => negb (is_space c)) (span is_space dep).2)
    as [pkg s2]. simpl in *.
  split; [done|]. intros Hq. rewrite Hdep, Hs1 in Hq.
  rewrite !all_chars_app in Hq.
  by apply andb_prop in Hq as [_ [? _]%andb_prop].
Qed.

(** X5.  Every package [ubuntu_packages] returns carries the name asked
    for and the source "ubuntu"; each of its dependencies has the source
    "ubuntu" and a name without blank or comma. *)
Theorem X5_ubuntu_packages_shape package_name packages :
  ubuntu_packages package_name = Ok packages ->
  Forall (fun p =>
            name p = package_name
            /\ package_source p = "ubuntu"
            /\ forall d,
                 d ∈ dependencies p ->
                 source d = "ubuntu"
                 /\ all_chars (fun c => negb (is_space c) && negb (is_comma c))
                              (package d) = true)
         packages.
Proof.
  unfold ubuntu_packages. destruct (apt_show package_name) as [contents|];
    [|done].
  destruct (String.eqb contents ""); [intros [= <-]; constructor|].
  apply scan_invariant; [|constructor].
  intros v line. split; [done|]. split; [done|]. simpl.
  intros d [dep [-> Hdep]]%elem_of_list_to_set%list_elem_of_fmap.
  split; [done|]. simpl.
  destruct (dependency_text_package (fun c => negb (is_comma c)) dep)
    as [Hblank Hcomma].
  pose proof (split_pieces_clean "," (slice_from 9 line)) as Hpieces.
  rewrite Forall_forall in Hpieces. specialize (Hcomma (Hpieces dep Hdep)).
  clear -Hblank Hcomma.
  induction ((dependency_text dep).1) as [|c s IH]; simpl in *; [done|].
  apply andb_prop in Hblank as [-> Hblank].
  apply andb_prop in Hcomma as [-> Hcomma]. simpl. by apply IH.
Qed.

Lemma depends_is_not_version_conv line :
  startswith line "Version: " = true -> startswith line "Depends: " = false.
Proof.
  intros Hv. destruct (startswith line "Depends: ") eqn:Hd; [|done].
  by rewrite (depends_is_not_version line Hd) in Hv.
Qed.

(** X6.  The loop builds at most one package for each [Version: ] line
    and at most one for each [Depends: ] line. *)
Theorem X6_one_package_per_stanza package_name contents packages :
  apt_show package_name = Returned contents ->
  ubuntu_packages package_name = Ok packages ->
  length packages <= count_lines "Version: " (split "010" contents)
  /\ length packages <= count_lines "Depends: " (split "010" contents).
Proof.
  intros Ha. unfold ubuntu_packages. rewrite Ha.
  destruct (String.eqb contents ""); [intros [= <-]; simpl; lia|].
  assert (forall lines version acc result,
            scan package_name lines version acc = Ok result ->
            length result + match version with Some _ => 0 | None => 1 end
            <= length acc + count_lines "Version: " lines + 1
            /\ length result <= length acc + count_lines "Depends: " lines)
    as Hcount.
  { unfold count_lines.
    induction lines as [|line rest IH]; intros version acc result Hscan.
    - injection Hscan as <-. simpl. destruct version; lia.
    - rewrite !filter_cons.
      destruct (startswith line "Version: ") eqn:Hv.
      + rewrite (depends_is_not_version_conv line Hv).
        simpl in Hscan. rewrite Hv in Hscan.
        unfold Re.ubuntu_version_match in Hscan.
        destruct (coerce _); [|done]. apply IH in Hscan.
        destruct (decide (true = true)); [|done].
        destruct (decide (false = true)); [done|].
        simpl in *. destruct version; lia.
      + destruct (decide (false = true)); [done|].
        destruct version as [v|].
        * destruct (startswith line "Depends: ") eqn:Hd.
          -- rewrite (scan_step_depends _ _ _ _ _ Hv Hd) in Hscan.
             apply IH in Hscan. rewrite length_app in Hscan.
             destruct (decide (true = true)); [|done]. simpl in *. lia.
          -- simpl in Hscan. rewrite Hv, Hd in Hscan. apply IH in Hscan.
             destruct (decide (false = true)); [done|]. simpl in *. lia.
        * simpl in Hscan. rewrite Hv in Hscan. apply IH in Hscan.
          destruct (decide (startswith line "Depends: " = true));
            simpl in *; lia. }
  intros Hs%Hcount. simpl in Hs. lia.
Qed.

End PackagesFacts.

(** ** When [ubuntu_packages] raises *)

Section RaiseFacts.
Context `{SV : SemanticVersion} `{H : !Host}.
Import PyStr UbuntuResolver.

Lemma scan_outcome package_name lines :
  forall version packages,
    (existsb version_line_rejected lines = false ->
     exists result, scan package_name lines version packages = Ok result)
    /\ (existsb version_line_rejected lines = true ->
        scan package_name lines version packages = Raise SemverValueError).
Proof.
  induction lines as [|line rest IH]; intros version packages.
  - split; [by eexists | done].
  - cbn [existsb].
    destruct (startswith line "Version: ") eqn:Hv.
    + assert (version_line_rejected line
              = match coerce (span (fun c => negb (is_hyphen c))
                                   (Re.skip_epochs (slice_from 9 line) false
                                      (slice_from 9 line))).1 with
                | Some _ => false
                | None => true
                end) as ->.
      { unfold version_line_rejected. by rewrite Hv. }
      cbn [scan]. rewrite Hv. unfold Re.ubuntu_version_match.
      destruct (coerce _); cbn [orb]; [apply IH | by split].
    + assert (version_line_rejected line = false) as ->.
      { unfold version_line_rejected. by rewrite Hv. }
      cbn [orb]. destruct version as [v|].
      * destruct (startswith line "Depends: ") eqn:Hd.
        -- rewrite (scan_step_depends _ _ _ _ _ Hv Hd). apply IH.
        -- cbn [scan]. rewrite Hv, Hd. apply IH.
      * cbn [scan]. rewrite Hv. apply IH.
Qed.

(** X7.  Once the apt command has answered, [ubuntu_packages] raises
    exactly when the answer has a [Version: ] line whose version group
    [Version.coerce] refuses, and then with that [ValueError]; no
    [Depends: ] line can make it raise. *)
Theorem X7_ubuntu_packages_raises_on_versions_only package_name contents :
  apt_show package_name = Returned contents ->
  (existsb version_line_rejected (split "010" contents) = false ->
   exists packages, ubuntu_packages package_name = Ok packages)
  /\ (existsb version_line_rejected (split "010" contents) = true ->
      ubuntu_packages package_name = Raise SemverValueError).
Proof.
  intros Ha. unfold ubuntu_packages. rewrite Ha.
  destruct (String.eqb_spec contents "") as [->|Hne].
  - split; [by eexists | done].
  - apply scan_outcome.
Qed.

(** X8.  While no version is pending, every line up to the next
    [Version: ] line is skipped: a [Depends: ] line that comes before the
    first version, or after another [Depends: ] line of the same stanza,
    builds nothing. *)
Theorem X8_lines_without_version_are_skipped package_name lines rest packages :
  Forall (fun line => startswith line "Version: " = false) lines ->
  scan package_name (lines ++ rest)%list None packages
  = scan package_name rest None packages.
Proof.
  induction 1 as [|line lines Hv _ IH]; [done|].
  rewrite <- app_comm_cons. cbn [scan]. by rewrite Hv.
Qed.

End RaiseFacts.

(** X7, a run: the answer for [libfoo] has no refused version line and
    [ubuntu_packages] returns. *)
Lemma X7_ubuntu_packages_raises_on_versions_only_witness :
  exists packages,
    UbuntuResolver.ubuntu_packages (H := Scenario.host) "libfoo" = Ok packages.
Proof.
  destruct (X7_ubuntu_packages_raises_on_versions_only (H := Scenario.host)
              "libfoo" Scenario.apt_libfoo eq_refl) as [Hok _].
  apply Hok. reflexivity.
Defined.

(** X8, a run: a dependency list before any version, then a stanza. *)
Lemma X8_lines_without_version_are_skipped_witness :
  UbuntuResolver.scan (SV := Semver.instance) "libfoo"
    (["Depends: libc6"; "Description: x"]
       ++ ["Version: 1.0"; "Depends: libc6"])%list None []
  = UbuntuResolver.scan (SV := Semver.instance) "libfoo"
      ["Version: 1.0"; "Depends: libc6"] None [].
Proof.
  apply (X8_lines_without_version_are_skipped (SV := Semver.instance)).
  repeat constructor.
Defined.

(** ** What [resolve] yields *)

Section YieldFacts.
Context `{SV : SemanticVersion} `{H : !Host}.
Import PyStr UbuntuResolver.

Lemma ubuntu_packages_names package_name packages :
  ubuntu_packages package_name = Ok packages ->
  Forall (fun p => name p = package_name /\ package_source p = "ubuntu")
         packages.
Proof.
  unfold ubuntu_packages. destruct (apt_show package_name); [|done].
  destruct (String.eqb _ ""); [intros [= <-]; constructor|].
  apply scan_invariant; [done | constructor].
Qed.

Lemma resolve_yielded_names d p :
  p ∈ yielded (resolve d) ->
  source d = "ubuntu" /\ name p = package d /\ package_source p = "ubuntu".
Proof.
  destruct (String.eqb_spec (source d) "ubuntu") as [Hs|Hs].
  - intros Hp. split; [done|]. rewrite (resolve_ubuntu d Hs) in Hp.
    destruct (startswith (package d) "/").
    + cbv zeta in Hp.
      assert (p ∈ yielded (resolve_file d)) as Hy.
      { destruct (raised (resolve_file d)) as [e|]; [|done].
        by destruct (caught_by_resolve e). }
      apply resolve_file_yielded in Hy as (_ & _ & _ & _ & ->). by simpl.
    + destruct (ubuntu_packages (package d)) as [l|e] eqn:Hl;
        [|by apply elem_of_nil in Hp].
      simpl in Hp. apply list_elem_of_filter in Hp as [_ Hp].
      pose proof (ubuntu_packages_names _ _ Hl) as Hall.
      rewrite Forall_forall in Hall. by apply Hall.
  - rewrite (resolve_other_source d Hs). by intros ?%elem_of_nil.
Qed.

(** X9.  Whatever [resolve] yields answers the request: the package has
    the name and the source of the dependency. *)
Theorem X9_resolve_yields_what_was_asked d p :
  p ∈ yielded (resolve d) ->
  name p = package d /\ package_source p = source d.
Proof.
  intros (Hs & Hn & Hp)%resolve_yielded_names. by rewrite Hs.
Qed.

Lemma filter_all {A} (P : A -> Prop) `{forall x, Decision (P x)}
    (l : list A) :
  (forall x, P x) -> filter P l = l.
Proof.
  intros HP. induction l as [|x l IH]; [done|].
  rewrite filter_cons. destruct (decide (P x)); [by rewrite IH|].
  by destruct (n (HP x)).
Qed.

(** X10.  A dependency on a package name with the wildcard constraint
    gets every package that [ubuntu_packages] returns, in its order. *)
Theorem X10_wildcard_yields_every_package d packages :
  source d = "ubuntu" ->
  startswith (package d) "/" = false ->
  semantic_version d = any_version ->
  ubuntu_packages (package d) = Ok packages ->
  resolve d = Generated packages None.
Proof.
  intros Hs Hf Hany Hl. rewrite (resolve_ubuntu d Hs), Hf, Hl, Hany.
  f_equal. apply filter_all. intros p. apply contains_any_version.
Qed.

(** X11.  A weaker constraint yields no less: when every version the
    constraint of [d1] admits is admitted by that of [d2], for the same
    package name, what [resolve d1] yields is yielded by [resolve d2], and
    both end the same way. *)
Theorem X11_resolve_is_monotone d1 d2 :
  source d1 = "ubuntu" -> source d2 = "ubuntu" ->
  package d1 = package d2 ->
  startswith (package d1) "/" = false ->
  (forall v, contains (semantic_version d1) v = true ->
             contains (semantic_version d2) v = true) ->
  (forall p, p ∈ yielded (resolve d1) -> p ∈ yielded (resolve d2))
  /\ raised (resolve d1) = raised (resolve d2).
Proof.
  intros Hs1 Hs2 Hpkg Hf Hweak.
  rewrite (resolve_ubuntu d1 Hs1), (resolve_ubuntu d2 Hs2), <- Hpkg, Hf.
  destruct (ubuntu_packages (package d1)) as [l|e]; simpl; [|done].
  split; [|done]. intros p [Hc Hp]%list_elem_of_filter.
  apply list_elem_of_filter. split; [by apply Hweak | done].
Qed.

(** X12.  For a dependency on a file path, no [ValueError] and no
    [CalledProcessError] leaves [resolve]: what it raises, if anything, is
    the exception of another class that the lookup raised. *)
Theorem X12_file_path_errors_are_handled d e :
  source d = "ubuntu" ->
  startswith (package d) "/" = true ->
  raised (resolve d) = Some e ->
  exists cls,
    e = HostFailure cls
    /\ (file_to_packages (package d)).2 = Some cls
    /\ cls <> ValueError /\ cls <> CalledProcessError
    /\ yielded (resolve d) = [].
Proof.
  intros Hs Hf. rewrite (resolve_ubuntu d Hs), Hf. cbv zeta.
  unfold resolve_file.
  destruct (file_to_packages (package d)) as [names [cls|]]; simpl.
  - destruct (caught_by_resolve (HostFailure cls)) eqn:Hc; simpl; [done|].
    intros [= <-]. exists cls. unfold caught_by_resolve in Hc. simpl in Hc.
    by destruct cls.
  - destruct names; simpl; [done|]. by destruct (coerce "0").
Qed.

(** X13.  The resolver never offers to augment a package it resolved
    itself: [can_update_dependencies] is false on everything [resolve]
    yields. *)
Theorem X13_own_packages_are_not_updated d p :
  p ∈ yielded (resolve d) -> can_update_dependencies p = false.
Proof.
  intros (_ & _ & Hp)%resolve_yielded_names.
  unfold can_update_dependencies. by rewrite Hp.
Qed.

(** X14.  [update_dependencies] only adds edges: the package keeps its
    name, version and source and every dependency it had, and gains exactly
    the native dependencies reported; when the scanner raises, so does the
    update. *)
Theorem X14_update_dependencies_only_adds p :
  match get_native_dependencies p with
  | Returned natives =>
      exists p',
        update_dependencies p = Ok p'
        /\ name p' = name p /\ version p' = version p
        /\ package_source p' = package_source p
        /\ can_update_dependencies p' = can_update_dependencies p
        /\ dependencies p ⊆ dependencies p'
        /\ forall d, d ∈ dependencies p' <-> d ∈ dependencies p \/ d ∈ natives
  | Failed cls => update_dependencies p = Raise (HostFailure cls)
  end.
Proof.
  unfold update_dependencies.
  destruct (get_native_dependencies p) as [natives|cls]; [|done].
  eexists. split; [done|]. simpl. repeat split; try done.
  - apply union_subseteq_l.
  - rewrite elem_of_union, elem_of_list_to_set. tauto.
  - rewrite elem_of_union, elem_of_list_to_set. tauto.
Qed.

End YieldFacts.

(** X3, a run: the example line of the source. *)
Lemma X3_parse_depends_reads_back_witness :
  UbuntuResolver.parse_depends (SV := Semver.instance)
    "Depends: libc6 (>= 2.29), libgcc-s1 (>= 3.4)"
  = Ok [("libc6", ">=2.29"); ("libgcc-s1", ">=3.4")].
Proof.
  apply (X3_parse_depends_reads_back (SV := Semver.instance)
           [("libc6", ">= 2.29"); ("libgcc-s1", ">= 3.4")]).
  - discriminate.
  - repeat constructor.
Defined.

(** X5, a run on the answer for [libfoo]. *)
Lemma X5_ubuntu_packages_shape_witness :
  exists packages,
    UbuntuResolver.ubuntu_packages (H := Scenario.host) "libfoo" = Ok packages
    /\ length packages = 1
    /\ Forall (fun p =>
                 name p = "libfoo"
                 /\ package_source p = "ubuntu"
                 /\ forall d,
                      d ∈ dependencies p ->
                      source d = "ubuntu"
                      /\ PyStr.all_chars
                           (fun c => negb (PyStr.is_space c)
                                     && negb (is_comma c))
                           (package d) = true)
              packages.
Proof.
  eexists. split; [reflexivity|]. split; [reflexivity|].
  apply (X5_ubuntu_packages_shape (H := Scenario.host) "libfoo").
  reflexivity.
Defined.

(** X6, a run on the answer for [libfoo]: one stanza, one package. *)
Lemma X6_one_package_per_stanza_witness :
  exists packages,
    UbuntuResolver.ubuntu_packages (H := Scenario.host) "libfoo" = Ok packages
    /\ length packages
       <= count_lines "Version: " (PyStr.split "010" Scenario.apt_libfoo)
    /\ length packages
       <= count_lines "Depends: " (PyStr.split "010" Scenario.apt_libfoo).
Proof.
  eexists. split; [reflexivity|].
  apply (X6_one_package_per_stanza (H := Scenario.host) "libfoo");
    reflexivity.
Defined.

(** X9, a run: what is found for [ubuntu:libfoo@>=2.0.0]. *)
Lemma X9_resolve_yields_what_was_asked_witness :
  length (yielded (Scenario.resolve Scenario.libfoo_dep)) = 1
  /\ Forall (fun p => name p = "libfoo" /\ package_source p = "ubuntu")
            (yielded (Scenario.resolve Scenario.libfoo_dep)).
Proof.
  split; [reflexivity|]. apply Forall_forall. intros p Hp.
  exact (X9_resolve_yields_what_was_asked (H := Scenario.host)
           Scenario.libfoo_dep p Hp).
Defined.

(** X10, a run: [ubuntu:libfoo@*]. *)
Lemma X10_wildcard_yields_every_package_witness :
  exists packages,
    UbuntuResolver.ubuntu_packages (H := Scenario.host) "libfoo" = Ok packages
    /\ UbuntuResolver.resolve (H := Scenario.host) MoreScenario.libfoo_any
       = Generated packages None.
Proof.
  eexists. split; [reflexivity|].
  apply (X10_wildcard_yields_every_package (H := Scenario.host)
           MoreScenario.libfoo_any); reflexivity.
Defined.

(** X11, a run: [ubuntu:libfoo@>=2.0.0] against [ubuntu:libfoo@*]. *)
Lemma X11_resolve_is_monotone_witness :
  (forall p,
     p ∈ yielded (UbuntuResolver.resolve (H := Scenario.host)
                    Scenario.libfoo_dep) ->
     p ∈ yielded (UbuntuResolver.resolve (H := Scenario.host)
                    MoreScenario.libfoo_any))
  /\ raised (UbuntuResolver.resolve (H := Scenario.host) Scenario.libfoo_dep)
     = raised (UbuntuResolver.resolve (H := Scenario.host)
                 MoreScenario.libfoo_any).
Proof.
  apply (X11_resolve_is_monotone (H := Scenario.host)
           Scenario.libfoo_dep MoreScenario.libfoo_any);
    reflexivity.
Defined.

(** X12, a run: the lookup of [/usr/lib/missing] raises
    [FileNotFoundError], which [resolve] lets through. *)
Lemma X12_file_path_errors_are_handled_witness :
  exists cls,
    HostFailure (OtherClass "FileNotFoundError") = HostFailure cls
    /\ (file_to_packages (Host := MoreScenario.host)
          (package MoreScenario.missing_file_dep)).2 = Some cls
    /\ cls <> ValueError /\ cls <> CalledProcessError
    /\ yielded (UbuntuResolver.resolve (H := MoreScenario.host)
                  MoreScenario.missing_file_dep) = [].
Proof.
  apply (X12_file_path_errors_are_handled (H := MoreScenario.host)
           MoreScenario.missing_file_dep); reflexivity.
Defined.

(** X13, a run: the package found for [ubuntu:libfoo@>=2.0.0]. *)
Lemma X13_own_packages_are_not_updated_witness :
  Forall (fun p => UbuntuResolver.can_update_dependencies p = false)
         (yielded (Scenario.resolve Scenario.libfoo_dep)).
Proof.
  apply Forall_forall. intros p Hp.
  exact (X13_own_packages_are_not_updated (H := Scenario.host)
           Scenario.libfoo_dep p Hp).
Defined.

(** ** [utils.py]: the apt-file lookup *)

Section AptFileFacts.
Import PyStr PyText AptUtils.

Lemma select_shortest_keeps lines :
  forall seen selected result,
    selection_invariant seen selected ->
    select_shortest lines selected = Return result ->
    selection_invariant (seen ++ lines)%list result.
Proof.
  induction lines as [|line rest IH]; intros seen selected result Hinv.
  - intros [= <-]. by rewrite app_nil_r.
  - cbn [select_shortest].
    replace (seen ++ line :: rest)%list with ((seen ++ [line]) ++ rest)%list
      by (by rewrite <- app_assoc).
    destruct (String.eqb_spec line "") as [->|Hne].
    + apply IH. destruct selected as [[filename package]|]; simpl in *.
      * destruct Hinv as (before & l0 & after & -> & Hl0 & Hb & Ha).
        exists before, l0, (after ++ [""])%list.
        split; [by rewrite <- app_assoc|]. split; [done|]. split; [done|].
        intros l p f [Hl|Hl%list_elem_of_singleton]%elem_of_app Hentry.
        -- by apply (Ha l p f).
        -- subst l. by destruct Hentry as [[] _].
      * apply Forall_app. split; [done|]. by constructor.
    + destruct (split_by ": " 0 line) as [|package_i [|filename_i [|? ?]]]
        eqn:Hsplit; try done.
      apply IH. destruct selected as [[filename package]|]; simpl in *.
      * destruct Hinv as (before & l0 & after & -> & Hl0 & Hb & Ha).
        destruct (Nat.ltb_spec (len filename_i) (len filename)) as [Hlt|Hge].
        -- exists ((before ++ l0 :: after)%list), line, [].
           split; [done|]. split; [done|]. split.
           ++ intros l p f [Hl|Hl]%elem_of_app Hentry.
              ** specialize (Hb l p f Hl Hentry). lia.
              ** apply elem_of_cons in Hl as [->|Hl].
                 --- destruct Hl0 as [_ Hl0], Hentry as [_ Hentry].
                     rewrite Hl0 in Hentry. injection Hentry as <- <-. lia.
                 --- specialize (Ha l p f Hl Hentry). lia.
           ++ by intros l p f ?%elem_of_nil.
        -- exists before, l0, (after ++ [line])%list.
           split; [by rewrite <- app_assoc|]. split; [done|]. split; [done|].
           intros l p f [Hl|Hl%list_elem_of_singleton]%elem_of_app Hentry.
           ++ by apply (Ha l p f).
           ++ subst l. destruct Hentry as [_ Hentry].
              rewrite Hsplit in Hentry. by injection Hentry as <- <-.
      * exists seen, line, []. split; [done|]. split; [done|]. split.
        -- intros l p f Hl [Hl' _]. rewrite Forall_forall in Hinv.
           by destruct Hl'; apply Hinv.
        -- by intros l p f ?%elem_of_nil.
Qed.

Lemma select_shortest_malformed lines :
  Exists (fun line => line <> EmptyString
                      /\ forall p f, split_by ": " 0 line <> [p; f]) lines ->
  forall selected, select_shortest lines selected = Throw UnpackMismatch.
Proof.
  induction lines as [|line rest IH]; intros Hex selected;
    [by inversion Hex|].
  cbn [select_shortest]. apply Exists_cons in Hex as [[Hne Hbad]|Hex].
  - destruct (String.eqb_spec line ""); [done|].
    destruct (split_by ": " 0 line) as [|p [|f [|? ?]]]; try done.
    by destruct (Hbad p f).
  - destruct (String.eqb line ""); [by apply IH|].
    destruct (split_by ": " 0 line) as [|p [|f [|? ?]]]; try done.
    by apply IH.
Qed.

Lemma select_shortest_empty lines :
  Forall (fun line => line = EmptyString) lines ->
  forall selected, select_shortest lines selected = Return selected.
Proof.
  induction 1 as [|line rest -> _ IH]; intros selected; [done|].
  cbn [select_shortest]. simpl. apply IH.
Qed.

(** X15.  When [file_to_package] returns a package, the architecture is
    supported and the package stands on a line "package: filename" of the
    answer to the search for "/filename$"; its file name is strictly shorter
    than the file names on the lines before it and not longer than those
    on the lines after it. *)
Theorem X15_file_to_package_picks_first_shortest
    apt_file_search filename arch package :
  file_to_package apt_file_search filename arch = Return package ->
  supported_arch arch = true
  /\ exists contents before line after shortest,
       apt_file_search (String "/" (filename ++ "$")) = Returned contents
       /\ split "010" contents = (before ++ line :: after)%list
       /\ line_entry line package shortest
       /\ (forall l p f, l ∈ before -> line_entry l p f ->
                         len shortest < len f)
       /\ (forall l p f, l ∈ after -> line_entry l p f ->
                         len shortest <= len f).
Proof.
  unfold file_to_package, _file_to_package_apt_file.
  destruct (supported_arch arch); [|done]. simpl.
  destruct (apt_file_search _) as [contents|cls]; [|done].
  destruct (select_shortest _ None) as [[[shortest pkg]|]|e] eqn:Hsel;
    try done.
  intros [= ->]. split; [done|].
  assert (selection_invariant [] None) as Hstart by constructor.
  pose proof (select_shortest_keeps _ [] None _ Hstart Hsel) as Hinv.
  simpl in Hinv. destruct Hinv as (before & line & after & Hlines & Hrest).
  by exists contents, before, line, after, shortest.
Qed.

(** X16.  How the lookup fails: on an unsupported architecture before any
    command is run; with the [ValueError] of the unpacking as soon as one
    non-empty line of the answer is not of the form "package: filename";
    with "not found" when the answer has only empty lines. *)
Theorem X16_file_to_package_failures apt_file_search filename arch :
  (supported_arch arch = false ->
   file_to_package apt_file_search filename arch = Throw UnsupportedArch)
  /\ (forall contents,
        supported_arch arch = true ->
        apt_file_search (String "/" (filename ++ "$")) = Returned contents ->
        (Exists (fun line => line <> EmptyString
                             /\ forall p f, split_by ": " 0 line <> [p; f])
                (split "010" contents) ->
         file_to_package apt_file_search filename arch = Throw UnpackMismatch)
        /\ (Forall (fun line => line = EmptyString) (split "010" contents) ->
            file_to_package apt_file_search filename arch
            = Throw (NotFound (String "/" (filename ++ "$"))))).
Proof.
  unfold file_to_package, _file_to_package_apt_file. split.
  - by intros ->.
  - intros contents -> ->. simpl. split.
    + intros Hbad. by rewrite (select_shortest_malformed _ Hbad).
    + intros Hempty. by rewrite (select_shortest_empty _ Hempty).
Qed.

End AptFileFacts.

(** X15, a run: two files end in "/libc.so.6"; the one in [/lib32] has the
    shorter name and comes second. *)
Lemma X15_file_to_package_picks_first_shortest_witness :
  AptUtils.supported_arch "amd64" = true
  /\ exists contents before line after shortest,
       MoreScenario.apt_file_search "/libc.so.6$" = Returned contents
       /\ PyStr.split "010" contents = (before ++ line :: after)%list
       /\ line_entry line "libc6-i386" shortest
       /\ (forall l p f, l ∈ before -> line_entry l p f ->
                         PyText.len shortest < PyText.len f)
       /\ (forall l p f, l ∈ after -> line_entry l p f ->
                         PyText.len shortest <= PyText.len f).
Proof.
  apply (X15_file_to_package_picks_first_shortest
           MoreScenario.apt_file_search "libc.so.6" "amd64" "libc6-i386").
  reflexivity.
Defined.

(** X16, a run: nothing is found for a file no package owns, and a line
    without ": " stops the lookup. *)
Lemma X16_file_to_package_failures_witness :
  AptUtils.file_to_package MoreScenario.apt_file_search "nothing.so" "amd64"
  = AptUtils.Throw (AptUtils.NotFound "/nothing.so$")
  /\ AptUtils.file_to_package (fun _ => Returned "Finding relevant cache files")
       "libc.so.6" "i386"
     = AptUtils.Throw AptUtils.UnpackMismatch
  /\ AptUtils.file_to_package MoreScenario.apt_file_search "libc.so.6" "arm64"
     = AptUtils.Throw AptUtils.UnsupportedArch.
Proof.
  split; [|split].
  - destruct (X16_file_to_package_failures MoreScenario.apt_file_search
                "nothing.so" "amd64") as [_ Hrun].
    destruct (Hrun "" eq_refl eq_refl) as [_ Hnone].
    apply Hnone. repeat constructor.
  - destruct (X16_file_to_package_failures
                (fun _ => Returned "Finding relevant cache files")
                "libc.so.6" "i386") as [_ Hrun].
    destruct (Hrun "Finding relevant cache files" eq_refl eq_refl)
      as [Hbad _].
    apply Hbad. constructor. split; [discriminate|].
    intros p f. discriminate.
  - destruct (X16_file_to_package_failures MoreScenario.apt_file_search
                "libc.so.6" "arm64") as [HArch _].
    apply HArch. reflexivity.
Defined.

(** ** [utils.py]: the list of apt packages *)

Section AptListFacts.
Import PyStr PyText AptUtils.

Lemma first_field sep x :
  all_chars (fun c => negb (Ascii.eqb c sep)) (hd EmptyString (split sep x))
  = true
  /\ (x = hd EmptyString (split sep x)
      \/ exists rest, x = hd EmptyString (split sep x) ++ String sep rest).
Proof.
  induction x as [|c x [IHclean IHcut]]; simpl; [by split; [|left]|].
  destruct (Ascii.eqb_spec c sep) as [->|Hne]; simpl.
  - split; [done|]. right. by exists x.
  - assert (hd EmptyString
              match split sep x with
              | [] => [String c EmptyString]
              | h :: r => String c h :: r
              end
            = String c (hd EmptyString (split sep x))) as ->
      by (by destruct (split sep x)).
    simpl. apply Ascii.eqb_neq in Hne. rewrite Hne, IHclean.
    split; [done|]. destruct IHcut as [IH|[rest IH]].
    + left. by rewrite <- IH.
    + right. exists rest. by rewrite string_app_cons, <- IH.
Qed.

(** X17.  [get_apt_packages] runs [apt list] once: after a call that
    returned, every later call returns the same tuple whatever the command
    would now answer, an empty tuple included; a call that raised leaves
    the list unset, so the next call runs the command again. *)
Theorem X17_get_apt_packages_is_cached apt_list all_packages :
  match get_apt_packages apt_list all_packages with
  | (Return names, all_packages') =>
      forall apt_list',
        get_apt_packages apt_list' all_packages'
        = (Return names, all_packages')
  | (Throw e, all_packages') =>
      all_packages = None /\ all_packages' = None
      /\ exists cls, apt_list = Failed cls /\ e = CommandFailed cls
  end.
Proof.
  unfold get_apt_packages. destruct all_packages as [cached|]; [done|].
  destruct apt_list as [text|cls]; [done|]. by eauto.
Qed.

(** X18.  On its first call [get_apt_packages] returns one name for each
    line of the answer, in order: the line cut at its first "/", hence
    without "/", and the whole line when it has none. *)
Theorem X18_get_apt_packages_names text names all_packages' :
  get_apt_packages (Returned text) None = (Return names, all_packages') ->
  all_packages' = Some names
  /\ Forall2 (fun name line =>
                all_chars (fun c => negb (Ascii.eqb c "/")) name = true
                /\ (line = name
                    \/ exists rest, line = name ++ String "/" rest))
             names (splitlines 0 text).
Proof.
  unfold get_apt_packages. intros [= <- <-]. split; [done|].
  induction (splitlines 0 text) as [|line lines IH]; simpl;
    constructor; [|done].
  apply first_field.
Qed.

End AptListFacts.

(** X18, a run on three lines of [apt list]. *)
Lemma X18_get_apt_packages_names_witness :
  AptUtils.get_apt_packages (Returned MoreScenario.apt_list) None
  = (AptUtils.Return ["Listing..."; "libc6"; "zlib1g"],
     Some ["Listing..."; "libc6"; "zlib1g"])
  /\ Forall2 (fun name line =>
                PyStr.all_chars (fun c => negb (Ascii.eqb c "/")) name = true
                /\ (line = name
                    \/ exists rest, line = name ++ String "/" rest))
             ["Listing..."; "libc6"; "zlib1g"]
             (PyText.splitlines 0 MoreScenario.apt_list).
Proof.
  split; [reflexivity|].
  apply (X18_get_apt_packages_names MoreScenario.apt_list
           ["Listing..."; "libc6"; "zlib1g"]
           (Some ["Listing..."; "libc6"; "zlib1g"])).
  reflexivity.
Defined.

(** ** [utils.py]: the Contents database *)

Section ContentsFacts.
Import AptUtils.

Lemma contents_call_raises search dbfile_exists filename arch :
  _file_to_package_contents search dbfile_exists true filename arch
  = (Throw (if negb (supported_arch arch) then UnsupportedArch
            else if dbfile_exists then NoAttribute "inf"
                 else UndefinedName "urllib"),
     true).
Proof.
  unfold _file_to_package_contents.
  destruct (supported_arch arch); [|done]. by destruct dbfile_exists.
Qed.

(** X19.  [_file_to_package_contents] never returns a package.  Starting
    from the empty [contents_db] of the module, every call of a sequence
    raises: [ValueError] for an unsupported architecture, else [NameError]
    for [urllib] when the database file is missing, else [AttributeError]
    for [logger.inf]; [contents_db] stays empty. *)
Theorem X19_contents_lookup_never_returns search calls :
  Forall2 (fun (call : bool * string * string) result =>
             result
             = Throw (if negb (supported_arch call.2) then UnsupportedArch
                      else if call.1.1 then NoAttribute "inf"
                           else UndefinedName "urllib"))
          calls (contents_calls search calls true).
Proof.
  induction calls as [|[[dbfile_exists filename] arch] calls IH];
    [constructor|].
  cbn [contents_calls]. rewrite contents_call_raises.
  by constructor.
Qed.

End ContentsFacts.

(** ** [is_available] *)

(** X20.  The resolver is available exactly when Docker is installed, or
    apt is installed on a host running Ubuntu; a refusal comes with a
    reason and an acceptance with none. *)
Theorem X20_is_available_needs_ubuntu_or_docker apt ubuntu docker :
  is_available_ok (UbuntuHost.is_available apt ubuntu docker)
  = (apt && ubuntu) || docker
  /\ (reason (UbuntuHost.is_available apt ubuntu docker) = EmptyString
      <-> is_available_ok (UbuntuHost.is_available apt ubuntu docker) = true).
Proof. by destruct apt, ubuntu, docker. Qed.

(** ** A whole stanza *)

Section StanzaFacts.
Context `{SV : SemanticVersion} `{H : !Host}.
Import PyStr UbuntuResolver.

(** The dependency the loop builds for one entry of the line. *)
Lemma depends_of_formatted entries :
  entries <> [] ->
  Forall (fun entry => well_formed_entry entry = true) entries ->
  depends_of (format_depends entries)
  = map (fun entry =>
           mkDependency _ entry.1
             (default any_version
                      (SimpleSpec (checked_version (Some entry.2))))
             ubuntu_name)
        entries.
Proof.
  intros Hne Hall. destruct entries as [|first rest]; [done|]. clear Hne.
  unfold depends_of. rewrite (formatted_pieces _ _ Hall).
  inversion Hall as [|? ? Hfirst Hrest]; subst.
  cbn [map]. f_equal.
  - unfold dependency_of.
    pose proof (dependency_text_formatted "" first eq_refl Hfirst) as Htext.
    rewrite string_app_nil_l in Htext. by rewrite Htext.
  - rewrite map_map. clear Hall Hfirst.
    induction Hrest as [|entry rest Hentry _ IH]; [done|].
    cbn [map]. f_equal; [|exact IH].
    unfold dependency_of.
    by rewrite (dependency_text_formatted " " entry eq_refl Hentry).
Qed.

(** X21.  A stanza written in apt's format is read back whole: a
    [Version: ] line whose group [Version.coerce] takes, followed by a
    [Depends: ] line of well-formed entries, gives one package of that
    version whose dependencies are exactly the entries, each with the
    constraint [SimpleSpec] reads from its text without blanks, or the
    wildcard when it refuses the text. *)
Theorem X21_stanza_is_read_back package_name text group v entries :
  Re.ubuntu_version_match text = Some group ->
  coerce group = Some v ->
  entries <> [] ->
  Forall (fun entry => well_formed_entry entry = true) entries ->
  scan package_name ["Version: " ++ text; format_depends entries] None []
  = Ok [mkPackage _ package_name v "ubuntu"
          (list_to_set
             (map (fun entry =>
                     mkDependency _ entry.1
                       (default any_version
                          (SimpleSpec (checked_version (Some entry.2))))
                       "ubuntu")
                  entries))].
Proof.
  intros Hg Hv Hne Hall. rewrite scan_version, Hg, Hv.
  assert (startswith (format_depends entries) "Depends: " = true) as Hd
    by apply startswith_app.
  rewrite (scan_step_depends _ _ _ _ _ (depends_is_not_version _ Hd) Hd).
  by rewrite (depends_of_formatted entries Hne Hall).
Qed.

End StanzaFacts.

(** X21, a run: the stanza of [libfoo]. *)
Lemma X21_stanza_is_read_back_witness :
  UbuntuResolver.scan (SV := Semver.instance) "libfoo"
    ["Version: 1:2.31-0ubuntu9.9";
     "Depends: libc6 (>= 2.29), libgcc-s1 (>= 3.4)"] None []
  = Ok [mkPackage Semver.instance "libfoo" (2, 31, 0)%N "ubuntu"
          (list_to_set
             [mkDependency Semver.instance "libc6"
                [(Semver.Ge_, (2, 29, 0)%N)] "ubuntu";
              mkDependency Semver.instance "libgcc-s1"
                [(Semver.Ge_, (3, 4, 0)%N)] "ubuntu"])].
Proof.
  apply (X21_stanza_is_read_back (SV := Semver.instance) "libfoo"
           "1:2.31-0ubuntu9.9" "2.31" (2, 31, 0)%N
           [("libc6", ">= 2.29"); ("libgcc-s1", ">= 3.4")]).
  - reflexivity.
  - reflexivity.
  - discriminate.
  - repeat constructor.
Defined.
